(** * CMAS: the three versions of the clinic medication dashboard

    A shallow embedding of the client-side logic of the three versions of
    the application:

    - [App]     : frontend/src/App.js   (fetch based),
    - [Part000] : src/unnamed/part_000  (axios, token kept in React state),
    - [Part001] : src/unnamed/part_001  (axios, token kept in storage only).

    JavaScript values, the browser's [localStorage], the HTTP outcomes and
    the observable effects (requests, alerts, console output) are modelled
    in [Js]; every asynchronous function takes the outcome of the request
    it awaits as an argument and is a computation in the monad [Js.M],
    which threads the component state and logs the effects in order. *)

From Stdlib Require Import ZArith Lia Ascii.
From stdpp Require Import base strings list gmap pretty.

Local Open Scope Z_scope.
Local Open Scope string_scope.

Set Warnings "-register-all".

(** ** JavaScript values and the browser environment *)

Module Js.

(** Values as they come out of [JSON.parse], plus [undefined] and [NaN].
    Numbers are the integers the application deals in. *)
Inductive value : Type :=
| JUndefined
| JNull
| JBool (b : bool)
| JNum (n : Z)
| JNaN
| JStr (s : string)
| JArr (items : list value)
| JObj (fields : list (string * value)).

(** ToBoolean: what [if (v)], [!v], [v ? a : b] and [v || w] test. *)
Definition truthy (v : value) : bool :=
  match v with
  | JUndefined | JNull | JNaN => false
  | JBool b => b
  | JNum n => negb (Z.eqb n 0)
  | JStr s => negb (String.eqb s "")
  | JArr _ | JObj _ => true
  end.

(** [a || b] *)
Definition or_else (a b : value) : value := if truthy a then a else b.

Fixpoint assoc (k : string) (fields : list (string * value)) : value :=
  match fields with
  | [] => JUndefined
  | (k', v) :: rest => if String.eqb k k' then v else assoc k rest
  end.

(** [v.k]: a TypeError ([None]) on [undefined] and [null], the own
    property of an object, [undefined] on everything else (none of the
    keys read by the application is a built-in property). *)
Definition prop (v : value) (k : string) : option value :=
  match v with
  | JUndefined | JNull => None
  | JObj fields => Some (assoc k fields)
  | _ => Some JUndefined
  end.

(** [v?.k] *)
Definition opt_prop (v : value) (k : string) : value :=
  match prop v k with
  | Some x => x
  | None => JUndefined
  end.

(** ToString, as applied by template literals, [localStorage.setItem]
    and [alert]. A number is printed in full decimal digits, which is what
    JavaScript prints below 1e21; beyond that it prints an exponent form,
    which is not modelled. *)
Fixpoint to_string (v : value) : string :=
  match v with
  | JUndefined => "undefined"
  | JNull => "null"
  | JBool true => "true"
  | JBool false => "false"
  | JNum n => pretty n
  | JNaN => "NaN"
  | JStr s => s
  | JArr items =>
      (fix join (l : list value) : string :=
         match l with
         | [] => ""
         | x :: rest =>
             let sx := match x with
                       | JUndefined | JNull => ""
                       | _ => to_string x
                       end in
             match rest with
             | [] => sx
             | _ => sx ++ "," ++ join rest
             end
         end) items
  | JObj _ => "[object Object]"
  end.

(** Object.is on the values a state variable can hold; arrays and objects
    are compared by content, standing for a stored value compared with
    itself. *)
Fixpoint same_value (a b : value) : bool :=
  match a, b with
  | JUndefined, JUndefined => true
  | JNull, JNull => true
  | JBool x, JBool y => Bool.eqb x y
  | JNum x, JNum y => Z.eqb x y
  | JNaN, JNaN => true
  | JStr x, JStr y => String.eqb x y
  | JArr xs, JArr ys =>
      (fix all2 (l1 l2 : list value) : bool :=
         match l1, l2 with
         | [], [] => true
         | x :: r1, y :: r2 => same_value x y && all2 r1 r2
         | _, _ => false
         end) xs ys
  | JObj xs, JObj ys =>
      (fix all2 (l1 l2 : list (string * value)) : bool :=
         match l1, l2 with
         | [], [] => true
         | (k1, x) :: r1, (k2, y) :: r2 =>
             String.eqb k1 k2 && same_value x y && all2 r1 r2
         | _, _ => false
         end) xs ys
  | _, _ => false
  end.

(** *** parseInt *)

(** The integer read is kept exact: the rounding to a double that
    JavaScript applies beyond 2^53 is not modelled. *)

Definition is_space (a : ascii) : bool :=
  let n := nat_of_ascii a in
  (Nat.eqb n 32 || (Nat.leb 9 n && Nat.leb n 13))%bool.

Fixpoint skip_space (s : string) : string :=
  match s with
  | String a rest => if is_space a then skip_space rest else s
  | EmptyString => s
  end.

Definition digit_value (radix : Z) (a : ascii) : option Z :=
  let n := Z.of_nat (nat_of_ascii a) in
  let d := if ((48 <=? n) && (n <=? 57))%Z then Some (n - 48)
           else if ((97 <=? n) && (n <=? 122))%Z then Some (n - 87)
           else if ((65 <=? n) && (n <=? 90))%Z then Some (n - 55)
           else None in
  match d with
  | Some x => if (x <? radix)%Z then Some x else None
  | None => None
  end.

(** The longest prefix of digits, read left to right. *)
Fixpoint read_digits (radix : Z) (s : string) (acc : option Z) : option Z :=
  match s with
  | String a rest =>
      match digit_value radix a with
      | Some d => read_digits radix rest (Some (radix * default 0 acc + d))
      | None => acc
      end
  | EmptyString => acc
  end.

Definition parseInt (s : string) : value :=
  let s := skip_space s in
  let '(sign, s) := match s with
                    | String "-" rest => (-1, rest)
                    | String "+" rest => (1, rest)
                    | _ => (1, s)
                    end in
  let '(radix, s) := match s with
                     | String "0" (String "x" rest) => (16, rest)
                     | String "0" (String "X" rest) => (16, rest)
                     | _ => (10, s)
                     end in
  match read_digits radix s None with
  | Some n => JNum (sign * n)
  | None => JNaN
  end.

(** *** localStorage: string keys, string values *)

Definition getItem (k : string) (ls : gmap string string) : value :=
  match ls !! k with
  | Some s => JStr s
  | None => JNull
  end.

Definition setItem (k : string) (v : value) (ls : gmap string string)
  : gmap string string :=
  <[k := to_string v]> ls.

Definition removeItem (k : string) (ls : gmap string string)
  : gmap string string :=
  delete k ls.

(** *** HTTP outcomes *)

(** What [await fetch(...)] can do: reject (no response), or resolve with
    a response whose [ok] flag tells 2xx from the rest and whose
    [json()] yields a value or rejects ([None]). *)
Inductive FetchOutcome : Type :=
| FetchRejected
| FetchResolved (ok : bool) (json : option value).

(** What [await axios.get/post(...)] can do: resolve (2xx) with
    [response.data], or reject with an error whose [response] is absent
    (no response) or carries the [data] of the error response. *)
Inductive AxiosOutcome : Type :=
| AxiosResolved (data : value)
| AxiosRejected (response : option value).

(** [error.response?.data?.detail] for the error caught in a handler;
    [None] is an error without [response] (network failure, TypeError). *)
Definition error_detail (response : option value) : value :=
  match response with
  | Some data => opt_prop data "detail"
  | None => JUndefined
  end.

(** *** Observable effects, in program order *)

(** [HttpPost] carries the object that is sent as the JSON body; [Settled]
    marks the point where the awaited request to [url] settled (resolved
    or rejected) and the function that awaited it resumed. A call of an
    async function that is not awaited logs the request it issues and
    nothing of what it does later. *)
Inductive Event : Type :=
| HttpGet (url : string)
| HttpPost (url : string) (body : value)
| Settled (url : string)
| Alert (msg : string)
| ConsoleError (msg : string).

(** State passing with an effect log. *)
Definition M (S A : Type) : Type := S -> A * S * list Event.

Definition ret {S A} (a : A) : M S A := fun s => (a, s, []).

Definition bind {S A B} (m : M S A) (k : A -> M S B) : M S B :=
  fun s =>
    let '(a, s1, log1) := m s in
    let '(b, s2, log2) := k a s1 in
    (b, s2, (log1 ++ log2)%list).

Definition modify {S} (f : S -> S) : M S unit := fun s => (tt, f s, []).
Definition gets {S A} (f : S -> A) : M S A := fun s => (f s, s, []).
Definition emit {S} (e : Event) : M S unit := fun s => (tt, s, [e]).

Definition result {S A} (r : A * S * list Event) : A := r.1.1.
Definition state {S A} (r : A * S * list Event) : S := r.1.2.
Definition trace {S A} (r : A * S * list Event) : list Event := r.2.

(** [process.env.NAME]: a string when the variable was set at build time,
    [undefined] otherwise. *)
Definition env_value (e : option string) : value :=
  match e with
  | Some s => JStr s
  | None => JUndefined
  end.

Fixpoint contains (needle s : string) : bool :=
  String.prefix needle s ||
  match s with
  | String _ rest => contains needle rest
  | EmptyString => false
  end.

(** [v.includes(needle)] for a string [needle]: String.prototype.includes
    on a string, Array.prototype.includes on an array, a TypeError
    ([None]) on every value that has no such method. *)
Definition includes (v : value) (needle : string) : option bool :=
  match v with
  | JStr s => Some (contains needle s)
  | JArr items => Some (existsb (same_value (JStr needle)) items)
  | _ => None
  end.

(** Running a computation of one component on its slot of a pair. *)
Definition zoom1 {S T A} (m : M S A) : M (S * T) A :=
  fun st => let '(a, s, log) := m st.1 in (a, (s, st.2), log).

Definition zoom2 {S T A} (m : M T A) : M (S * T) A :=
  fun st => let '(a, t, log) := m st.2 in (a, (st.1, t), log).

(** *** React context *)

(** [useContext(C)]: the value of the nearest enclosing [C.Provider]
    (the head of [providers]), or the default given to [createContext]. *)
Definition useContext {A} (default : A) (providers : list A) : A :=
  match providers with
  | nearest :: _ => nearest
  | [] => default
  end.

(** What a thrown [new Error(message)] carries. *)
Inductive Error : Type := mkError (message : string).

(** *** Two tests on values *)

(** [v === s] for a string literal [s]. *)
Definition is_string (v : value) (s : string) : bool :=
  match v with
  | JStr x => String.eqb x s
  | _ => false
  end.

(** [v == null]: what stops an optional chain. *)
Definition nullish (v : value) : bool :=
  match v with
  | JUndefined | JNull => true
  | _ => false
  end.

End Js.

Import Js.

Notation "x <- m ;; k" := (Js.bind m (fun x => k))
  (at level 100, m at next level, right associativity).
Notation "m ;;; k" := (Js.bind m (fun _ => k))
  (at level 100, right associativity).

(** ** Entities of the backend, as the client receives them *)

Record Medication : Type := {
  med_id : string;
  name : string;
  description : string;
  med_unit : string;
  current_stock : Z;
  minimum_threshold : Z
}.

(** An [<option value=...>label</option>] of a [<select>]. *)
Record SelectOption : Type := {
  opt_value : string;
  opt_label : string
}.

(** The value returned by [login] and [initializeAdmin]:
    [{ success: true }] (with [data] in one version) or
    [{ success: false, error }]. *)
Inductive AuthResult : Type :=
| Success (data : option value)
| Failure (error : value).

Definition success (r : AuthResult) : bool :=
  match r with
  | Success _ => true
  | Failure _ => false
  end.

(** [result.error]; reading the missing field of a success is [undefined]. *)
Definition error (r : AuthResult) : value :=
  match r with
  | Success _ => JUndefined
  | Failure e => e
  end.

(** What the top-level component renders. *)
Inductive View : Type :=
| LoadingView
| DashboardView
| LoginFormView.

(** ** First version: frontend/src/App.js *)

Module App.

Section WithEnv.

(** [process.env.REACT_APP_BACKEND_URL] *)
Variable REACT_APP_BACKEND_URL : option string.

Definition API_BASE_URL : string :=
  to_string (or_else (env_value REACT_APP_BACKEND_URL)
                     (JStr "http://localhost:8000/api")).

(** *** Auth context *)

(** The object handed to [AuthContext.Provider]; its [login], [logout]
    and [initializeAdmin] members are the functions defined below. *)
Record AuthValue : Type := {
  ctx_user : value;
  ctx_token : value;
  ctx_loading : bool
}.

(** What the context slot holds: [undefined] or the provider's object. *)
Inductive Context : Type :=
| CtxUndefined
| CtxObject (v : AuthValue).

(** [createContext()] *)
Definition AuthContext : Context := CtxUndefined.

(** [!context] *)
Definition not_ (context : Context) : bool :=
  match context with
  | CtxUndefined => true
  | CtxObject _ => false
  end.

Definition useAuth (providers : list Context) : Error + Context :=
  let context := useContext AuthContext providers in
  if not_ context
  then inl (mkError "useAuth must be used within an AuthProvider")
  else inr context.

(** *** AuthProvider *)

Record Session : Type := {
  user : value;
  token : value;
  loading : bool;
  localStorage : gmap string string
}.

Definition setUser (v : value) (s : Session) : Session :=
  {| user := v; token := token s; loading := loading s;
     localStorage := localStorage s |}.

Definition setToken (v : value) (s : Session) : Session :=
  {| user := user s; token := v; loading := loading s;
     localStorage := localStorage s |}.

Definition setLoading (b : bool) (s : Session) : Session :=
  {| user := user s; token := token s; loading := b;
     localStorage := localStorage s |}.

Definition withStorage (f : gmap string string -> gmap string string)
  (s : Session) : Session :=
  {| user := user s; token := token s; loading := loading s;
     localStorage := f (localStorage s) |}.

(** The [useState] initialisers, over the storage found at startup. *)
Definition AuthProvider_init (ls : gmap string string) : Session :=
  {| user := JNull; token := getItem "token" ls; loading := true;
     localStorage := ls |}.

(** The value the provider passes down on a render. *)
Definition AuthProvider_value (s : Session) : Context :=
  CtxObject {| ctx_user := user s; ctx_token := token s;
               ctx_loading := loading s |}.

(** The [.catch] branch and the [else] branch of the effect do the same
    to the token. *)
Definition drop_token : M Session unit :=
  modify (withStorage (removeItem "token")) ;;;
  modify (setToken JNull).

(** The body of [useEffect(..., [token])]; [me] is the outcome of
    GET /auth/me, consulted when the request is issued. *)
Definition effect (me : FetchOutcome) : M Session unit :=
  tok <- gets token ;;
  if truthy tok then
    let url := API_BASE_URL ++ "/auth/me" in
    emit (HttpGet url) ;;;
    emit (Settled url) ;;;
    match me with
    | FetchRejected =>
        drop_token ;;; modify (setLoading false)
    | FetchResolved ok json =>
        match (if ok then json else Some JNull) with
        | None =>
            drop_token ;;; modify (setLoading false)
        | Some data =>
            (if truthy data then modify (setUser data) else drop_token) ;;;
            modify (setLoading false)
        end
    end
  else
    modify (setLoading false).

(** Mounting the provider: the effect runs, and runs again when the
    render that follows finds [token] changed. *)
Definition mount (me : FetchOutcome) : M Session unit :=
  before <- gets token ;;
  effect me ;;;
  after <- gets token ;;
  if same_value before after then ret tt else effect me.

Definition startup (ls : gmap string string) (me : FetchOutcome)
  : unit * Session * list Event :=
  mount me (AuthProvider_init ls).

Definition login (username password : string) (out : FetchOutcome)
  : M Session AuthResult :=
  let url := API_BASE_URL ++ "/auth/login" in
  emit (HttpPost url (JObj [("username", JStr username);
                            ("password", JStr password)])) ;;;
  emit (Settled url) ;;;
  match out with
  | FetchRejected => ret (Failure (JStr "Network error"))
  | FetchResolved true json =>
      match json with
      | None => ret (Failure (JStr "Network error"))
      | Some data =>
          match prop data "access_token" with
          | None => ret (Failure (JStr "Network error"))
          | Some access_token =>
              modify (setToken access_token) ;;;
              modify (setUser (opt_prop data "user")) ;;;
              modify (withStorage (setItem "token" access_token)) ;;;
              ret (Success None)
          end
      end
  | FetchResolved false json =>
      match json with
      | None => ret (Failure (JStr "Network error"))
      | Some error =>
          match prop error "detail" with
          | None => ret (Failure (JStr "Network error"))
          | Some detail => ret (Failure detail)
          end
      end
  end.

Definition logout : M Session unit :=
  modify (setUser JNull) ;;;
  modify (setToken JNull) ;;;
  modify (withStorage (removeItem "token")).

Definition initializeAdmin (out : FetchOutcome) : M Session AuthResult :=
  let url := API_BASE_URL ++ "/init/admin" in
  emit (HttpPost url JUndefined) ;;;
  emit (Settled url) ;;;
  match out with
  | FetchRejected => ret (Failure (JStr "Network error"))
  | FetchResolved true _ => ret (Success None)
  | FetchResolved false json =>
      match json with
      | None => ret (Failure (JStr "Network error"))
      | Some error =>
          match prop error "detail" with
          | None => ret (Failure (JStr "Network error"))
          | Some detail => ret (Failure detail)
          end
      end
  end.

(** *** LoginForm *)

(** The state of the form; [form_error] is its [error]. *)
Record LoginForm : Type := {
  username : string;
  password : string;
  form_error : value;
  isLoading : bool;
  showInitAdmin : bool
}.

Definition LoginForm_init : LoginForm :=
  {| username := ""; password := ""; form_error := JStr "";
     isLoading := false; showInitAdmin := false |}.

Definition setError (v : value) (f : LoginForm) : LoginForm :=
  {| username := username f; password := password f; form_error := v;
     isLoading := isLoading f; showInitAdmin := showInitAdmin f |}.

Definition setIsLoading (b : bool) (f : LoginForm) : LoginForm :=
  {| username := username f; password := password f;
     form_error := form_error f; isLoading := b;
     showInitAdmin := showInitAdmin f |}.

Definition setShowInitAdmin (b : bool) (f : LoginForm) : LoginForm :=
  {| username := username f; password := password f;
     form_error := form_error f; isLoading := isLoading f;
     showInitAdmin := b |}.

(** [handleSubmit]; the result is [None] when the handler dies of an
    uncaught TypeError. *)
Definition handleSubmit (out : FetchOutcome)
  : M (Session * LoginForm) (option unit) :=
  zoom2 (modify (setIsLoading true)) ;;;
  zoom2 (modify (setError (JStr ""))) ;;;
  u <- zoom2 (gets username) ;;
  p <- zoom2 (gets password) ;;
  result <- zoom1 (login u p out) ;;
  if negb (success result) then
    zoom2 (modify (setError (error result))) ;;;
    match includes (error result) "User not found" with
    | None => ret None
    | Some true =>
        zoom2 (modify (setShowInitAdmin true)) ;;;
        zoom2 (modify (setIsLoading false)) ;;;
        ret (Some tt)
    | Some false =>
        match includes (error result) "Invalid credentials" with
        | None => ret None
        | Some b =>
            (if b then zoom2 (modify (setShowInitAdmin true)) else ret tt) ;;;
            zoom2 (modify (setIsLoading false)) ;;;
            ret (Some tt)
        end
    end
  else
    zoom2 (modify (setIsLoading false)) ;;;
    ret (Some tt).

(** *** AppContent *)

Definition AppContent (s : Session) : View :=
  if loading s then LoadingView
  else if truthy (user s) then DashboardView
  else LoginFormView.

(** *** Dashboard and MedicationsTab: stock status *)

Record StockStatus : Type := {
  text : string;
  color : string
}.

(** Declared twice in the file (Dashboard and MedicationsTab), with the
    same body. *)
Definition getStockStatus (medication : Medication) : StockStatus :=
  if (current_stock medication =? 0)%Z then
    {| text := "❌ Out of Stock"; color := "red" |}
  else if (current_stock medication <=? minimum_threshold medication)%Z then
    {| text := "⚠️ Low Stock"; color := "yellow" |}
  else
    {| text := "✅ In Stock"; color := "green" |}.

(** *** UsageTab *)

Record UsageTab : Type := {
  selectedMedication : string;
  quantity : string;
  notes : string;
  isLogging : bool
}.

Definition setIsLogging (b : bool) (t : UsageTab) : UsageTab :=
  {| selectedMedication := selectedMedication t; quantity := quantity t;
     notes := notes t; isLogging := b |}.

(** [setSelectedMedication(''); setQuantity(''); setNotes('')] *)
Definition clearForm (t : UsageTab) : UsageTab :=
  {| selectedMedication := ""; quantity := ""; notes := "";
     isLogging := isLogging t |}.

Definition handleLogUsage (out : FetchOutcome) : M UsageTab unit :=
  modify (setIsLogging true) ;;;
  sel <- gets selectedMedication ;;
  q <- gets quantity ;;
  n <- gets notes ;;
  let url := API_BASE_URL ++ "/medications/" ++ sel ++ "/use" in
  emit (HttpPost url (JObj [("medication_id", JStr sel);
                            ("quantity_used", parseInt q);
                            ("notes", JStr n)])) ;;;
  emit (Settled url) ;;;
  match out with
  | FetchRejected => emit (Alert "Network error occurred")
  | FetchResolved true _ =>
      emit (Alert "Usage logged successfully!") ;;;
      modify clearForm
  | FetchResolved false json =>
      match json with
      | None => emit (Alert "Network error occurred")
      | Some error =>
          match prop error "detail" with
          | None => emit (Alert "Network error occurred")
          | Some detail => emit (Alert ("Error: " ++ to_string detail))
          end
      end
  end ;;;
  modify (setIsLogging false).

(** The [<option>]s of the medication [<select>] of the usage form. *)
Definition medicationOption (med : Medication) : SelectOption :=
  {| opt_value := med_id med;
     opt_label := name med ++ " (Available: " ++ pretty (current_stock med)
                  ++ " " ++ med_unit med ++ ")" |}.

Definition medicationSelect (medications : list Medication)
  : list SelectOption :=
  {| opt_value := ""; opt_label := "Select a medication" |}
  :: map medicationOption medications.

(** The [onChange] of the medication [<select>]: the value of the chosen
    option becomes [selectedMedication]. *)
Definition setSelectedMedication (v : string) (t : UsageTab) : UsageTab :=
  {| selectedMedication := v; quantity := quantity t; notes := notes t;
     isLogging := isLogging t |}.

(** *** LoginForm: handleInitAdmin *)

Definition setUsername (v : string) (f : LoginForm) : LoginForm :=
  {| username := v; password := password f; form_error := form_error f;
     isLoading := isLoading f; showInitAdmin := showInitAdmin f |}.

Definition setPassword (v : string) (f : LoginForm) : LoginForm :=
  {| username := username f; password := v; form_error := form_error f;
     isLoading := isLoading f; showInitAdmin := showInitAdmin f |}.

Definition handleInitAdmin (out : FetchOutcome)
  : M (Session * LoginForm) unit :=
  zoom2 (modify (setIsLoading true)) ;;;
  result <- zoom1 (initializeAdmin out) ;;
  (if success result then
     zoom2 (modify (setUsername "admin")) ;;;
     zoom2 (modify (setPassword "admin123")) ;;;
     zoom2 (modify (setError (JStr ""))) ;;;
     zoom2 (modify (setShowInitAdmin false)) ;;;
     emit (Alert "Admin user created! Username: admin, Password: admin123")
   else
     zoom2 (modify (setError (error result)))) ;;;
  zoom2 (modify (setIsLoading false)).

(** *** AuthProvider: the effect after a state change *)

(** The render that follows a change of state runs the effect of
    [useEffect(..., [token])] again when [token] is not the value the
    effect last ran with ([before]). *)
Definition effect_on_change (before : value) (me : FetchOutcome)
  : M Session unit :=
  after <- gets token ;;
  if same_value before after then ret tt else effect me.

End WithEnv.

(** *** Dashboard: the two loaders *)

Module Dashboard.

Section WithEnv.

Variable REACT_APP_BACKEND_URL : option string.

Record State : Type := {
  dashboardData : value;
  medications : value;
  loading : bool;
  activeTab : string
}.

(** The [useState] initialisers. *)
Definition init : State :=
  {| dashboardData := JNull; medications := JArr []; loading := true;
     activeTab := "overview" |}.

Definition setDashboardData (v : value) (s : State) : State :=
  {| dashboardData := v; medications := medications s;
     loading := loading s; activeTab := activeTab s |}.

Definition setMedications (v : value) (s : State) : State :=
  {| dashboardData := dashboardData s; medications := v;
     loading := loading s; activeTab := activeTab s |}.

Definition setLoading (b : bool) (s : State) : State :=
  {| dashboardData := dashboardData s; medications := medications s;
     loading := b; activeTab := activeTab s |}.

Definition dashboard_url : string :=
  API_BASE_URL REACT_APP_BACKEND_URL ++ "/dashboard".

Definition medications_url : string :=
  API_BASE_URL REACT_APP_BACKEND_URL ++ "/medications".

(** What [fetchDashboardData] does once its request has settled. On a 2xx
    answer it awaits [response.json()]; nothing of the state is touched
    before that second await, so the two steps are one here. *)
Definition fetchDashboardData_resume (out : FetchOutcome) : M State unit :=
  match out with
  | FetchRejected => emit (ConsoleError "Failed to fetch dashboard data:")
  | FetchResolved true (Some data) => modify (setDashboardData data)
  | FetchResolved true None =>
      emit (ConsoleError "Failed to fetch dashboard data:")
  | FetchResolved false _ => ret tt
  end.

Definition fetchDashboardData (out : FetchOutcome) : M State unit :=
  emit (HttpGet dashboard_url) ;;;
  emit (Settled dashboard_url) ;;;
  fetchDashboardData_resume out.

Definition fetchMedications_resume (out : FetchOutcome) : M State unit :=
  match out with
  | FetchRejected => emit (ConsoleError "Failed to fetch medications:")
  | FetchResolved true (Some data) => modify (setMedications data)
  | FetchResolved true None =>
      emit (ConsoleError "Failed to fetch medications:")
  | FetchResolved false _ => ret tt
  end ;;;
  modify (setLoading false).

Definition fetchMedications (out : FetchOutcome) : M State unit :=
  emit (HttpGet medications_url) ;;;
  emit (Settled medications_url) ;;;
  fetchMedications_resume out.

(** The effect of the mount: both loaders are called, each runs up to its
    [await], and they resume in the order in which their requests settle. *)
Definition mount (dash meds : FetchOutcome) (dashboard_first : bool)
  : M State unit :=
  emit (HttpGet dashboard_url) ;;;
  emit (HttpGet medications_url) ;;;
  if dashboard_first then
    emit (Settled dashboard_url) ;;;
    fetchDashboardData_resume dash ;;;
    emit (Settled medications_url) ;;;
    fetchMedications_resume meds
  else
    emit (Settled medications_url) ;;;
    fetchMedications_resume meds ;;;
    emit (Settled dashboard_url) ;;;
    fetchDashboardData_resume dash.

End WithEnv.

End Dashboard.

End App.

(** ** Second version: src/unnamed/part_000 *)

Module Part000.

Section WithEnv.

Variable REACT_APP_BACKEND_URL : option string.

Definition API_BASE_URL : string :=
  to_string (or_else (env_value REACT_APP_BACKEND_URL)
                     (JStr "http://localhost:8000/api")).

(** *** Auth context *)

Record AuthValue : Type := {
  ctx_user : value;
  ctx_token : value;
  ctx_loading : bool;
  ctx_API_BASE_URL : string
}.

Inductive Context : Type :=
| CtxUndefined
| CtxObject (v : AuthValue).

Definition AuthContext : Context := CtxUndefined.

(** [!context] *)
Definition not_ (context : Context) : bool :=
  match context with
  | CtxUndefined => true
  | CtxObject _ => false
  end.

Definition useAuth (providers : list Context) : Error + Context :=
  let context := useContext AuthContext providers in
  if not_ context
  then inl (mkError "useAuth must be used within an AuthProvider")
  else inr context.

(** *** AuthProvider *)

(** [headers] is [axios.defaults.headers.common], the ambient credential
    of every axios request. *)
Record Session : Type := {
  user : value;
  token : value;
  loading : bool;
  localStorage : gmap string string;
  headers : gmap string string
}.

Definition setUser (v : value) (s : Session) : Session :=
  {| user := v; token := token s; loading := loading s;
     localStorage := localStorage s; headers := headers s |}.

Definition setToken (v : value) (s : Session) : Session :=
  {| user := user s; token := v; loading := loading s;
     localStorage := localStorage s; headers := headers s |}.

Definition setLoading (b : bool) (s : Session) : Session :=
  {| user := user s; token := token s; loading := b;
     localStorage := localStorage s; headers := headers s |}.

Definition withStorage (f : gmap string string -> gmap string string)
  (s : Session) : Session :=
  {| user := user s; token := token s; loading := loading s;
     localStorage := f (localStorage s); headers := headers s |}.

Definition withHeaders (f : gmap string string -> gmap string string)
  (s : Session) : Session :=
  {| user := user s; token := token s; loading := loading s;
     localStorage := localStorage s; headers := f (headers s) |}.

Definition AuthProvider_init (ls hs : gmap string string) : Session :=
  {| user := JNull; token := getItem "token" ls; loading := true;
     localStorage := ls; headers := hs |}.

Definition AuthProvider_value (s : Session) : Context :=
  CtxObject {| ctx_user := user s; ctx_token := token s;
               ctx_loading := loading s;
               ctx_API_BASE_URL := API_BASE_URL |}.

Definition logout : M Session unit :=
  modify (setToken JNull) ;;;
  modify (setUser JNull) ;;;
  modify (withStorage (removeItem "token")) ;;;
  modify (withHeaders (delete "Authorization")).

Definition fetchUserInfo (me : AxiosOutcome) : M Session unit :=
  let url := API_BASE_URL ++ "/auth/me" in
  emit (HttpGet url) ;;;
  emit (Settled url) ;;;
  match me with
  | AxiosResolved data => modify (setUser data)
  | AxiosRejected _ =>
      emit (ConsoleError "Failed to fetch user info:") ;;;
      logout
  end ;;;
  modify (setLoading false).

(** The body of [useEffect(..., [token])]. *)
Definition effect (me : AxiosOutcome) : M Session unit :=
  tok <- gets token ;;
  if truthy tok then
    modify (withHeaders (insert "Authorization" ("Bearer " ++ to_string tok))) ;;;
    fetchUserInfo me
  else
    modify (setLoading false).

Definition mount (me : AxiosOutcome) : M Session unit :=
  before <- gets token ;;
  effect me ;;;
  after <- gets token ;;
  if same_value before after then ret tt else effect me.

Definition startup (ls hs : gmap string string) (me : AxiosOutcome)
  : unit * Session * list Event :=
  mount me (AuthProvider_init ls hs).

Definition login (username password : string) (out : AxiosOutcome)
  : M Session AuthResult :=
  let url := API_BASE_URL ++ "/auth/login" in
  emit (HttpPost url (JObj [("username", JStr username);
                            ("password", JStr password)])) ;;;
  emit (Settled url) ;;;
  match out with
  | AxiosResolved data =>
      (* const { access_token, user: userData } = response.data *)
      match prop data "access_token" with
      | None => ret (Failure (or_else (error_detail None) (JStr "Login failed")))
      | Some access_token =>
          let userData := opt_prop data "user" in
          modify (setToken access_token) ;;;
          modify (setUser userData) ;;;
          modify (withStorage (setItem "token" access_token)) ;;;
          modify (withHeaders
                    (insert "Authorization" ("Bearer " ++ to_string access_token))) ;;;
          ret (Success None)
      end
  | AxiosRejected response =>
      ret (Failure (or_else (error_detail response) (JStr "Login failed")))
  end.

Definition initializeAdmin (out : AxiosOutcome) : M Session AuthResult :=
  let url := API_BASE_URL ++ "/init/admin" in
  emit (HttpPost url JUndefined) ;;;
  emit (Settled url) ;;;
  match out with
  | AxiosResolved data => ret (Success (Some data))
  | AxiosRejected response =>
      ret (Failure (or_else (error_detail response)
                            (JStr "Failed to initialize admin")))
  end.

(** *** AppContent *)

Definition AppContent (s : Session) : View :=
  if loading s then LoadingView
  else if truthy (user s) then DashboardView
  else LoginFormView.

(** *** Dashboard *)

Definition lowStockMeds (medications : list Medication) : list Medication :=
  List.filter (fun med => (current_stock med <=? minimum_threshold med)%Z)
              medications.

Definition criticalStockMeds (medications : list Medication)
  : list Medication :=
  List.filter (fun med => (current_stock med =? 0)%Z) medications.

(** [fetchMedications()] runs up to its [await]: it issues this request;
    what it does with the answer happens after its caller has moved on. *)
Definition fetchMedications_request : Event :=
  HttpGet (API_BASE_URL ++ "/medications").

(** *** MedicationsTab *)

Record StockStatus : Type := {
  status : string;
  color : string;
  text : string
}.

Definition getStockStatus (med : Medication) : StockStatus :=
  if (current_stock med =? 0)%Z then
    {| status := "critical"; color := "red"; text := "Out of Stock" |}
  else if (current_stock med <=? minimum_threshold med)%Z then
    {| status := "low"; color := "yellow"; text := "Low Stock" |}
  else
    {| status := "good"; color := "green"; text := "In Stock" |}.

(** *** UsageTab *)

Record UsageTab : Type := {
  selectedMedication : string;
  quantity : string;
  notes : string;
  isLogging : bool
}.

Definition setIsLogging (b : bool) (t : UsageTab) : UsageTab :=
  {| selectedMedication := selectedMedication t; quantity := quantity t;
     notes := notes t; isLogging := b |}.

Definition clearForm (t : UsageTab) : UsageTab :=
  {| selectedMedication := ""; quantity := ""; notes := "";
     isLogging := isLogging t |}.

(** [fetchUsageHistory()] up to its [await]. *)
Definition fetchUsageHistory_request : Event :=
  HttpGet (API_BASE_URL ++ "/usage").

(** [onRefresh] is the Dashboard's [fetchMedications]. *)
Definition handleLogUsage (out : AxiosOutcome) : M UsageTab unit :=
  modify (setIsLogging true) ;;;
  sel <- gets selectedMedication ;;
  q <- gets quantity ;;
  n <- gets notes ;;
  let url := API_BASE_URL ++ "/medications/" ++ sel ++ "/use" in
  emit (HttpPost url (JObj [("quantity_used", parseInt q);
                            ("notes", JStr n)])) ;;;
  emit (Settled url) ;;;
  match out with
  | AxiosResolved _ =>
      modify clearForm ;;;
      emit fetchMedications_request ;;;
      emit fetchUsageHistory_request ;;;
      emit (Alert "Usage logged successfully!")
  | AxiosRejected response =>
      emit (Alert (to_string (or_else (error_detail response)
                                      (JStr "Failed to log usage"))))
  end ;;;
  modify (setIsLogging false).

Definition medicationOption (med : Medication) : SelectOption :=
  {| opt_value := med_id med;
     opt_label := name med ++ " (Available: " ++ pretty (current_stock med)
                  ++ " " ++ med_unit med ++ ")" |}.

Definition medicationSelect (medications : list Medication)
  : list SelectOption :=
  {| opt_value := ""; opt_label := "Select a medication" |}
  :: map medicationOption medications.

(** The [onChange] of the medication [<select>]: the value of the chosen
    option becomes [selectedMedication]. *)
Definition setSelectedMedication (v : string) (t : UsageTab) : UsageTab :=
  {| selectedMedication := v; quantity := quantity t; notes := notes t;
     isLogging := isLogging t |}.

(** *** AuthProvider: the effect after a state change *)

(** The render that follows a change of state runs the effect of
    [useEffect(..., [token])] again when [token] is not the value the
    effect last ran with ([before]). *)
Definition effect_on_change (before : value) (me : AxiosOutcome)
  : M Session unit :=
  after <- gets token ;;
  if same_value before after then ret tt else effect me.

End WithEnv.

(** *** LoginForm *)

Module LoginForm.

Section WithEnv.

Variable REACT_APP_BACKEND_URL : option string.

(** The state of the form; [form_error] is its [error]. *)
Record State : Type := {
  username : string;
  password : string;
  form_error : value;
  isLoading : bool;
  showInitAdmin : bool
}.

Definition init : State :=
  {| username := ""; password := ""; form_error := JStr "";
     isLoading := false; showInitAdmin := false |}.

Definition setUsername (v : string) (f : State) : State :=
  {| username := v; password := password f; form_error := form_error f;
     isLoading := isLoading f; showInitAdmin := showInitAdmin f |}.

Definition setPassword (v : string) (f : State) : State :=
  {| username := username f; password := v; form_error := form_error f;
     isLoading := isLoading f; showInitAdmin := showInitAdmin f |}.

Definition setError (v : value) (f : State) : State :=
  {| username := username f; password := password f; form_error := v;
     isLoading := isLoading f; showInitAdmin := showInitAdmin f |}.

Definition setIsLoading (b : bool) (f : State) : State :=
  {| username := username f; password := password f;
     form_error := form_error f; isLoading := b;
     showInitAdmin := showInitAdmin f |}.

Definition setShowInitAdmin (b : bool) (f : State) : State :=
  {| username := username f; password := password f;
     form_error := form_error f; isLoading := isLoading f;
     showInitAdmin := b |}.

(** [handleSubmit]; the result is [None] when the handler dies of an
    uncaught TypeError. *)
Definition handleSubmit (out : AxiosOutcome)
  : M (Session * State) (option unit) :=
  zoom2 (modify (setIsLoading true)) ;;;
  zoom2 (modify (setError (JStr ""))) ;;;
  u <- zoom2 (gets username) ;;
  p <- zoom2 (gets password) ;;
  result <- zoom1 (login REACT_APP_BACKEND_URL u p out) ;;
  if negb (success result) then
    zoom2 (modify (setError (error result))) ;;;
    match includes (error result) "User not found" with
    | None => ret None
    | Some true =>
        zoom2 (modify (setShowInitAdmin true)) ;;;
        zoom2 (modify (setIsLoading false)) ;;;
        ret (Some tt)
    | Some false =>
        match includes (error result) "Invalid credentials" with
        | None => ret None
        | Some b =>
            (if b then zoom2 (modify (setShowInitAdmin true)) else ret tt) ;;;
            zoom2 (modify (setIsLoading false)) ;;;
            ret (Some tt)
        end
    end
  else
    zoom2 (modify (setIsLoading false)) ;;;
    ret (Some tt).

Definition handleInitAdmin (out : AxiosOutcome)
  : M (Session * State) unit :=
  zoom2 (modify (setIsLoading true)) ;;;
  result <- zoom1 (initializeAdmin REACT_APP_BACKEND_URL out) ;;
  (if success result then
     zoom2 (modify (setUsername "admin")) ;;;
     zoom2 (modify (setPassword "admin123")) ;;;
     zoom2 (modify (setError (JStr ""))) ;;;
     zoom2 (modify (setShowInitAdmin false)) ;;;
     emit (Alert "Admin user created! Username: admin, Password: admin123")
   else
     zoom2 (modify (setError (error result)))) ;;;
  zoom2 (modify (setIsLoading false)).

End WithEnv.

End LoginForm.

(** *** Dashboard: the two loaders and the tabs *)

Module Dashboard.

Section WithEnv.

Variable REACT_APP_BACKEND_URL : option string.

Record State : Type := {
  stats : value;
  medications : value;
  activeTab : string;
  loading : bool;
  error : string
}.

Definition init : State :=
  {| stats := JNull; medications := JArr []; activeTab := "dashboard";
     loading := true; error := "" |}.

Definition setStats (v : value) (s : State) : State :=
  {| stats := v; medications := medications s; activeTab := activeTab s;
     loading := loading s; error := error s |}.

Definition setMedications (v : value) (s : State) : State :=
  {| stats := stats s; medications := v; activeTab := activeTab s;
     loading := loading s; error := error s |}.

Definition setLoading (b : bool) (s : State) : State :=
  {| stats := stats s; medications := medications s;
     activeTab := activeTab s; loading := b; error := error s |}.

Definition setError (v : string) (s : State) : State :=
  {| stats := stats s; medications := medications s;
     activeTab := activeTab s; loading := loading s; error := v |}.

Definition dashboard_url : string :=
  API_BASE_URL REACT_APP_BACKEND_URL ++ "/dashboard".

Definition medications_url : string :=
  API_BASE_URL REACT_APP_BACKEND_URL ++ "/medications".

(** [console.error(error)] logs the error object alone: no text. *)
Definition fetchDashboardData_resume (out : AxiosOutcome) : M State unit :=
  match out with
  | AxiosResolved data => modify (setStats data)
  | AxiosRejected _ =>
      modify (setError "Failed to fetch dashboard data") ;;;
      emit (ConsoleError "")
  end.

Definition fetchDashboardData (out : AxiosOutcome) : M State unit :=
  emit (HttpGet dashboard_url) ;;;
  emit (Settled dashboard_url) ;;;
  fetchDashboardData_resume out.

Definition fetchMedications_resume (out : AxiosOutcome) : M State unit :=
  match out with
  | AxiosResolved data => modify (setMedications data)
  | AxiosRejected _ =>
      modify (setError "Failed to fetch medications") ;;;
      emit (ConsoleError "")
  end ;;;
  modify (setLoading false).

Definition fetchMedications (out : AxiosOutcome) : M State unit :=
  emit (HttpGet medications_url) ;;;
  emit (Settled medications_url) ;;;
  fetchMedications_resume out.

(** The effect of the mount: both loaders are called, each runs up to its
    [await], and they resume in the order in which their requests settle. *)
Definition mount (dash meds : AxiosOutcome) (dashboard_first : bool)
  : M State unit :=
  emit (HttpGet dashboard_url) ;;;
  emit (HttpGet medications_url) ;;;
  if dashboard_first then
    emit (Settled dashboard_url) ;;;
    fetchDashboardData_resume dash ;;;
    emit (Settled medications_url) ;;;
    fetchMedications_resume meds
  else
    emit (Settled medications_url) ;;;
    fetchMedications_resume meds ;;;
    emit (Settled dashboard_url) ;;;
    fetchDashboardData_resume dash.

(** The tab buttons of the navigation bar. *)
Definition navTabs (user : value) : list string :=
  (["dashboard"; "medications"; "usage"] ++
   (if is_string (opt_prop user "role") "admin" then ["admin"] else []))%list.

Inductive Panel : Type :=
| DashboardTab
| MedicationsTab
| UsageTab
| AdminTab.

(** The four conditional renders of the main content, in order. *)
Definition mainPanels (activeTab : string) (user : value) : list Panel :=
  ((if String.eqb activeTab "dashboard" then [DashboardTab] else []) ++
   (if String.eqb activeTab "medications" then [MedicationsTab] else []) ++
   (if String.eqb activeTab "usage" then [UsageTab] else []) ++
   (if String.eqb activeTab "admin" && is_string (opt_prop user "role") "admin"
    then [AdminTab] else []))%list.

(** What the component returns: the spinner ([None]) while [loading], the
    panels otherwise. *)
Definition render (s : State) (user : value) : option (list Panel) :=
  if loading s then None else Some (mainPanels (activeTab s) user).

End WithEnv.

End Dashboard.

(** *** AdminTab *)

Module AdminTab.

Section WithEnv.

Variable REACT_APP_BACKEND_URL : option string.

(** The text fields of the form; [med_unit] is its [unit]. *)
Record NewMedication : Type := {
  name : string;
  current_stock : string;
  minimum_threshold : string;
  med_unit : string;
  description : string
}.

Record State : Type := {
  newMedication : NewMedication;
  isAdding : bool;
  isTestingSMS : bool
}.

Definition emptyMedication : NewMedication :=
  {| name := ""; current_stock := ""; minimum_threshold := "";
     med_unit := ""; description := "" |}.

Definition init : State :=
  {| newMedication := emptyMedication; isAdding := false;
     isTestingSMS := false |}.

Definition setNewMedication (m : NewMedication) (s : State) : State :=
  {| newMedication := m; isAdding := isAdding s;
     isTestingSMS := isTestingSMS s |}.

Definition setIsAdding (b : bool) (s : State) : State :=
  {| newMedication := newMedication s; isAdding := b;
     isTestingSMS := isTestingSMS s |}.

Definition setIsTestingSMS (b : bool) (s : State) : State :=
  {| newMedication := newMedication s; isAdding := isAdding s;
     isTestingSMS := b |}.

(** [{ ...newMedication, current_stock: parseInt(...),
       minimum_threshold: parseInt(...) }] *)
Definition medicationBody (m : NewMedication) : value :=
  JObj [("name", JStr (name m));
        ("current_stock", parseInt (current_stock m));
        ("minimum_threshold", parseInt (minimum_threshold m));
        ("unit", JStr (med_unit m));
        ("description", JStr (description m))].

(** [onRefresh] is the Dashboard's [fetchMedications]. *)
Definition handleAddMedication (out : AxiosOutcome) : M State unit :=
  modify (setIsAdding true) ;;;
  m <- gets newMedication ;;
  let url := API_BASE_URL REACT_APP_BACKEND_URL ++ "/medications" in
  emit (HttpPost url (medicationBody m)) ;;;
  emit (Settled url) ;;;
  match out with
  | AxiosResolved _ =>
      modify (setNewMedication emptyMedication) ;;;
      emit (fetchMedications_request REACT_APP_BACKEND_URL) ;;;
      emit (Alert "Medication added successfully!")
  | AxiosRejected response =>
      emit (Alert (to_string (or_else (error_detail response)
                                      (JStr "Failed to add medication"))))
  end ;;;
  modify (setIsAdding false).

Definition handleTestSMS (out : AxiosOutcome) : M State unit :=
  modify (setIsTestingSMS true) ;;;
  let url := API_BASE_URL REACT_APP_BACKEND_URL ++ "/alerts/test" in
  emit (HttpPost url JUndefined) ;;;
  emit (Settled url) ;;;
  match out with
  | AxiosResolved data =>
      match prop data "success" with
      | Some flag =>
          emit (Alert (if truthy flag then "Test SMS sent successfully!"
                       else "Failed to send test SMS"))
      | None =>
          emit (Alert (to_string (or_else (error_detail None)
                                          (JStr "Failed to send test SMS"))))
      end
  | AxiosRejected response =>
      emit (Alert (to_string (or_else (error_detail response)
                                      (JStr "Failed to send test SMS"))))
  end ;;;
  modify (setIsTestingSMS false).

End WithEnv.

End AdminTab.

End Part000.

(** ** Third version: src/unnamed/part_001 *)

Module Part001.

Section WithEnv.

Variable REACT_APP_BACKEND_URL : option string.

Definition BACKEND_URL : value := env_value REACT_APP_BACKEND_URL.

Definition API : string := to_string BACKEND_URL ++ "/api".

(** *** Auth context *)

Record AuthValue : Type := {
  ctx_user : value;
  ctx_loading : bool
}.

Inductive Context : Type :=
| CtxUndefined
| CtxObject (v : AuthValue).

Definition AuthContext : Context := CtxUndefined.

(** [!context] *)
Definition not_ (context : Context) : bool :=
  match context with
  | CtxUndefined => true
  | CtxObject _ => false
  end.

Definition useAuth (providers : list Context) : Error + Context :=
  let context := useContext AuthContext providers in
  if not_ context
  then inl (mkError "useAuth must be used within an AuthProvider")
  else inr context.

(** *** AuthProvider *)

(** This version keeps no token in React state: the token lives in
    [localStorage] and in the ambient axios header. *)
Record Session : Type := {
  user : value;
  loading : bool;
  localStorage : gmap string string;
  headers : gmap string string
}.

Definition setUser (v : value) (s : Session) : Session :=
  {| user := v; loading := loading s;
     localStorage := localStorage s; headers := headers s |}.

Definition setLoading (b : bool) (s : Session) : Session :=
  {| user := user s; loading := b;
     localStorage := localStorage s; headers := headers s |}.

Definition withStorage (f : gmap string string -> gmap string string)
  (s : Session) : Session :=
  {| user := user s; loading := loading s;
     localStorage := f (localStorage s); headers := headers s |}.

Definition withHeaders (f : gmap string string -> gmap string string)
  (s : Session) : Session :=
  {| user := user s; loading := loading s;
     localStorage := localStorage s; headers := f (headers s) |}.

Definition AuthProvider_init (ls hs : gmap string string) : Session :=
  {| user := JNull; loading := true; localStorage := ls; headers := hs |}.

Definition AuthProvider_value (s : Session) : Context :=
  CtxObject {| ctx_user := user s; ctx_loading := loading s |}.

Definition fetchUserInfo (me : AxiosOutcome) : M Session unit :=
  let url := API ++ "/auth/me" in
  emit (HttpGet url) ;;;
  emit (Settled url) ;;;
  match me with
  | AxiosResolved data => modify (setUser data)
  | AxiosRejected _ =>
      modify (withStorage (removeItem "token")) ;;;
      modify (withHeaders (delete "Authorization"))
  end ;;;
  modify (setLoading false).

(** The body of [useEffect(..., [])]: it runs once, on mount. *)
Definition effect (me : AxiosOutcome) : M Session unit :=
  tok <- gets (fun s => getItem "token" (localStorage s)) ;;
  if truthy tok then
    modify (withHeaders (insert "Authorization" ("Bearer " ++ to_string tok))) ;;;
    fetchUserInfo me
  else
    modify (setLoading false).

Definition startup (ls hs : gmap string string) (me : AxiosOutcome)
  : unit * Session * list Event :=
  effect me (AuthProvider_init ls hs).

Definition login (username password : string) (out : AxiosOutcome)
  : M Session AuthResult :=
  let url := API ++ "/auth/login" in
  emit (HttpPost url (JObj [("username", JStr username);
                            ("password", JStr password)])) ;;;
  emit (Settled url) ;;;
  match out with
  | AxiosResolved data =>
      (* const { access_token, user: userData } = response.data *)
      match prop data "access_token" with
      | None => ret (Failure (or_else (error_detail None) (JStr "Login failed")))
      | Some access_token =>
          let userData := opt_prop data "user" in
          modify (withStorage (setItem "token" access_token)) ;;;
          modify (withHeaders
                    (insert "Authorization" ("Bearer " ++ to_string access_token))) ;;;
          modify (setUser userData) ;;;
          ret (Success None)
      end
  | AxiosRejected response =>
      ret (Failure (or_else (error_detail response) (JStr "Login failed")))
  end.

Definition logout : M Session unit :=
  modify (withStorage (removeItem "token")) ;;;
  modify (withHeaders (delete "Authorization")) ;;;
  modify (setUser JNull).

(** *** AuthContent *)

Definition AuthContent (s : Session) : View :=
  if loading s then LoadingView
  else if truthy (user s) then DashboardView
  else LoginFormView.

(** *** Dashboard and DashboardContent *)

Definition fetchMedications_request : Event :=
  HttpGet (API ++ "/medications").

Definition lowStockMeds (medications : list Medication) : list Medication :=
  List.filter (fun med => (current_stock med <=? minimum_threshold med)%Z)
              medications.

Definition criticalStockMeds (medications : list Medication)
  : list Medication :=
  List.filter (fun med => (current_stock med =? 0)%Z) medications.

(** *** MedicationsContent *)

Record UsageForm : Type := {
  medicationId : string;
  quantity : string;
  notes : string
}.

(** The component state: [usageForm] and the component's own [loading]
    flag, here [submitting] ([loading] names the flag of the session). *)
Record MedicationsContent : Type := {
  usageForm : UsageForm;
  submitting : bool
}.

Definition setLoadingFlag (b : bool) (c : MedicationsContent)
  : MedicationsContent :=
  {| usageForm := usageForm c; submitting := b |}.

Definition setUsageForm (f : UsageForm) (c : MedicationsContent)
  : MedicationsContent :=
  {| usageForm := f; submitting := submitting c |}.

Definition handleUsageSubmit (out : AxiosOutcome)
  : M MedicationsContent unit :=
  modify (setLoadingFlag true) ;;;
  form <- gets usageForm ;;
  let url := API ++ "/medications/" ++ medicationId form ++ "/use" in
  emit (HttpPost url (JObj [("quantity_used", parseInt (quantity form));
                            ("notes", JStr (notes form))])) ;;;
  emit (Settled url) ;;;
  match out with
  | AxiosResolved _ =>
      emit (Alert "Usage logged successfully!") ;;;
      modify (setUsageForm {| medicationId := ""; quantity := "";
                              notes := "" |}) ;;;
      emit fetchMedications_request
  | AxiosRejected response =>
      emit (Alert (to_string (or_else (error_detail response)
                                      (JStr "Failed to log usage"))))
  end ;;;
  modify (setLoadingFlag false).

Definition medicationOption (med : Medication) : SelectOption :=
  {| opt_value := med_id med;
     opt_label := name med ++ " (Stock: " ++ pretty (current_stock med)
                  ++ ")" |}.

Definition medicationSelect (medications : list Medication)
  : list SelectOption :=
  {| opt_value := ""; opt_label := "Select medication" |}
  :: map medicationOption
       (List.filter (fun med => (current_stock med >? 0)%Z) medications).

(** The [onChange] of the medication [<select>]:
    [setUsageForm({...usageForm, medicationId: e.target.value})]. *)
Definition onMedicationChange (v : string) (c : MedicationsContent)
  : MedicationsContent :=
  setUsageForm {| medicationId := v; quantity := quantity (usageForm c);
                  notes := notes (usageForm c) |} c.

(** The rows of the medication list: the flags computed for each [med],
    the badge next to its name and the colour class of its stock figure. *)
Definition isLowStock (med : Medication) : bool :=
  (current_stock med <=? minimum_threshold med)%Z.

Definition isCritical (med : Medication) : bool :=
  (current_stock med =? 0)%Z.

(** [{isCritical && <span>OUT OF STOCK</span>}] followed by
    [{isLowStock && !isCritical && <span>LOW STOCK</span>}] *)
Definition stockBadges (med : Medication) : list string :=
  ((if isCritical med then ["OUT OF STOCK"] else []) ++
   (if isLowStock med && negb (isCritical med) then ["LOW STOCK"] else []))%list.

Definition stockColor (med : Medication) : string :=
  if isCritical med then "text-red-600"
  else if isLowStock med then "text-yellow-600"
  else "text-green-600".

(** *** UsageContent *)

(** [fetchUsage()], called by the effect of the usage tab when it mounts. *)
Definition fetchUsage_request : Event :=
  HttpGet (API ++ "/usage").

End WithEnv.

(** *** LoginForm *)

Module LoginForm.

Section WithEnv.

Variable REACT_APP_BACKEND_URL : option string.

(** The state of the form; [form_error] is its [error]. *)
Record State : Type := {
  username : string;
  password : string;
  form_error : value;
  loading : bool
}.

Definition init : State :=
  {| username := ""; password := ""; form_error := JStr "";
     loading := false |}.

Definition setError (v : value) (f : State) : State :=
  {| username := username f; password := password f; form_error := v;
     loading := loading f |}.

Definition setLoading (b : bool) (f : State) : State :=
  {| username := username f; password := password f;
     form_error := form_error f; loading := b |}.

Definition handleSubmit (out : AxiosOutcome) : M (Session * State) unit :=
  zoom2 (modify (setLoading true)) ;;;
  zoom2 (modify (setError (JStr ""))) ;;;
  u <- zoom2 (gets username) ;;
  p <- zoom2 (gets password) ;;
  result <- zoom1 (login REACT_APP_BACKEND_URL u p out) ;;
  (if negb (success result)
   then zoom2 (modify (setError (error result)))
   else ret tt) ;;;
  zoom2 (modify (setLoading false)).

(** The form's own [initializeAdmin]: it reports by [alert] only. *)
Definition initializeAdmin (out : AxiosOutcome) : M State unit :=
  let url := API REACT_APP_BACKEND_URL ++ "/init/admin" in
  emit (HttpPost url JUndefined) ;;;
  emit (Settled url) ;;;
  match out with
  | AxiosResolved _ =>
      emit (Alert "Admin user created! Username: admin, Password: admin123")
  | AxiosRejected response =>
      emit (Alert (to_string (or_else (error_detail response)
                                      (JStr "Failed to create admin user"))))
  end.

End WithEnv.

End LoginForm.

(** *** Dashboard: the two loaders and the tabs *)

Module Dashboard.

Section WithEnv.

Variable REACT_APP_BACKEND_URL : option string.

Record State : Type := {
  stats : value;
  medications : value;
  loading : bool;
  activeTab : string
}.

Definition init : State :=
  {| stats := JNull; medications := JArr []; loading := true;
     activeTab := "dashboard" |}.

Definition setStats (v : value) (s : State) : State :=
  {| stats := v; medications := medications s; loading := loading s;
     activeTab := activeTab s |}.

Definition setMedications (v : value) (s : State) : State :=
  {| stats := stats s; medications := v; loading := loading s;
     activeTab := activeTab s |}.

Definition setLoading (b : bool) (s : State) : State :=
  {| stats := stats s; medications := medications s; loading := b;
     activeTab := activeTab s |}.

Definition dashboard_url : string :=
  API REACT_APP_BACKEND_URL ++ "/dashboard".

Definition medications_url : string :=
  API REACT_APP_BACKEND_URL ++ "/medications".

Definition fetchDashboardData_resume (out : AxiosOutcome) : M State unit :=
  match out with
  | AxiosResolved data => modify (setStats data)
  | AxiosRejected _ => emit (ConsoleError "Failed to fetch dashboard data:")
  end.

Definition fetchDashboardData (out : AxiosOutcome) : M State unit :=
  emit (HttpGet dashboard_url) ;;;
  emit (Settled dashboard_url) ;;;
  fetchDashboardData_resume out.

Definition fetchMedications_resume (out : AxiosOutcome) : M State unit :=
  match out with
  | AxiosResolved data =>
      modify (setMedications data) ;;;
      modify (setLoading false)
  | AxiosRejected _ =>
      emit (ConsoleError "Failed to fetch medications:") ;;;
      modify (setLoading false)
  end.

Definition fetchMedications (out : AxiosOutcome) : M State unit :=
  emit (HttpGet medications_url) ;;;
  emit (Settled medications_url) ;;;
  fetchMedications_resume out.

(** The effect of the mount: both loaders are called, each runs up to its
    [await], and they resume in the order in which their requests settle. *)
Definition mount (dash meds : AxiosOutcome) (dashboard_first : bool)
  : M State unit :=
  emit (HttpGet dashboard_url) ;;;
  emit (HttpGet medications_url) ;;;
  if dashboard_first then
    emit (Settled dashboard_url) ;;;
    fetchDashboardData_resume dash ;;;
    emit (Settled medications_url) ;;;
    fetchMedications_resume meds
  else
    emit (Settled medications_url) ;;;
    fetchMedications_resume meds ;;;
    emit (Settled dashboard_url) ;;;
    fetchDashboardData_resume dash.

(** The tab buttons of the navigation bar, by the tab each one selects. *)
Definition navTabs (user : value) : list string :=
  (["dashboard"; "medications"; "usage"] ++
   (if is_string (opt_prop user "role") "admin" then ["admin"] else []))%list.

Inductive Panel : Type :=
| DashboardContent
| MedicationsContent
| UsageContent
| AdminContent.

(** The four conditional renders of the tab content, in order. *)
Definition mainPanels (activeTab : string) (user : value) : list Panel :=
  ((if String.eqb activeTab "dashboard" then [DashboardContent] else []) ++
   (if String.eqb activeTab "medications" then [MedicationsContent] else []) ++
   (if String.eqb activeTab "usage" then [UsageContent] else []) ++
   (if String.eqb activeTab "admin" && is_string (opt_prop user "role") "admin"
    then [AdminContent] else []))%list.

Definition render (s : State) (user : value) : option (list Panel) :=
  if loading s then None else Some (mainPanels (activeTab s) user).

(** *** DashboardContent: the two recent lists *)

(** What a list section shows: its rows, one per item, or a text. *)
Inductive Section_ : Type :=
| Rows (items : list value)
| Text (text : string).

(** [stats?.KEY?.slice(0, 5).map(item => <row/>) || <p>TEXT</p>].
    The chain stops, and the text shows, when [stats] or the list is
    nullish; [slice] then [map] exist together on arrays only, and a row
    reads the fields of its item, so anything else than an array of
    non-nullish items is a TypeError ([None]). *)
Definition recentRows (key text : string) (stats : value)
  : option Section_ :=
  if nullish stats then Some (Text text)
  else
    let list := opt_prop stats key in
    if nullish list then Some (Text text)
    else
      match list with
      | JArr items =>
          let shown := take 5 items in
          if existsb nullish shown then None else Some (Rows shown)
      | _ => None
      end.

Definition recentUsage (stats : value) : option Section_ :=
  recentRows "recent_usage" "No recent usage" stats.

Definition recentAlerts (stats : value) : option Section_ :=
  recentRows "recent_alerts" "No recent alerts" stats.

End WithEnv.

End Dashboard.

(** *** AdminContent *)

Module AdminContent.

Section WithEnv.

Variable REACT_APP_BACKEND_URL : option string.

(** The text fields of the form; [med_unit] is its [unit]. *)
Record NewMed : Type := {
  name : string;
  current_stock : string;
  minimum_threshold : string;
  med_unit : string;
  description : string
}.

Record State : Type := {
  newMed : NewMed;
  loading : bool
}.

Definition emptyMed : NewMed :=
  {| name := ""; current_stock := ""; minimum_threshold := "";
     med_unit := ""; description := "" |}.

Definition init : State := {| newMed := emptyMed; loading := false |}.

Definition setNewMed (m : NewMed) (s : State) : State :=
  {| newMed := m; loading := loading s |}.

Definition setLoading (b : bool) (s : State) : State :=
  {| newMed := newMed s; loading := b |}.

Definition medicationBody (m : NewMed) : value :=
  JObj [("name", JStr (name m));
        ("current_stock", parseInt (current_stock m));
        ("minimum_threshold", parseInt (minimum_threshold m));
        ("unit", JStr (med_unit m));
        ("description", JStr (description m))].

Definition handleSubmit (out : AxiosOutcome) : M State unit :=
  modify (setLoading true) ;;;
  m <- gets newMed ;;
  let url := API REACT_APP_BACKEND_URL ++ "/medications" in
  emit (HttpPost url (medicationBody m)) ;;;
  emit (Settled url) ;;;
  match out with
  | AxiosResolved _ =>
      emit (Alert "Medication added successfully!") ;;;
      modify (setNewMed emptyMed) ;;;
      emit (fetchMedications_request REACT_APP_BACKEND_URL)
  | AxiosRejected response =>
      emit (Alert (to_string (or_else (error_detail response)
                                      (JStr "Failed to add medication"))))
  end ;;;
  modify (setLoading false).

Definition testSMS (out : AxiosOutcome) : M State unit :=
  let url := API REACT_APP_BACKEND_URL ++ "/alerts/test" in
  emit (HttpPost url JUndefined) ;;;
  emit (Settled url) ;;;
  match out with
  | AxiosResolved _ => emit (Alert "Test SMS sent successfully!")
  | AxiosRejected response =>
      emit (Alert ("Failed to send test SMS: " ++
                   to_string (or_else (error_detail response)
                                      (JStr "Unknown error"))))
  end.

End WithEnv.

End AdminContent.

End Part001.

(** ** Vocabulary of the statements *)

(** The three values [getStockStatus] can return, per version; the third
    version computes the badge and the colour of a row in place. *)
Definition App_critical : App.StockStatus :=
  {| App.text := "❌ Out of Stock"; App.color := "red" |}.
Definition App_low : App.StockStatus :=
  {| App.text := "⚠️ Low Stock"; App.color := "yellow" |}.
Definition App_ok : App.StockStatus :=
  {| App.text := "✅ In Stock"; App.color := "green" |}.

Definition Part000_critical : Part000.StockStatus :=
  {| Part000.status := "critical"; Part000.color := "red";
     Part000.text := "Out of Stock" |}.
Definition Part000_low : Part000.StockStatus :=
  {| Part000.status := "low"; Part000.color := "yellow";
     Part000.text := "Low Stock" |}.
Definition Part000_ok : Part000.StockStatus :=
  {| Part000.status := "good"; Part000.color := "green";
     Part000.text := "In Stock" |}.

Definition Part001_row (med : Medication) : list string * string :=
  (Part001.stockBadges med, Part001.stockColor med).
Definition Part001_critical : list string * string :=
  (["OUT OF STOCK"], "text-red-600").
Definition Part001_low : list string * string :=
  (["LOW STOCK"], "text-yellow-600").
Definition Part001_ok : list string * string :=
  ([], "text-green-600").

(** The scenario of the specification. *)
Definition med_of (stock threshold : Z) : Medication :=
  {| med_id := "m1"; name := "Paracetamol"; description := "";
     med_unit := "tablets"; current_stock := stock;
     minimum_threshold := threshold |}.

(** A well-formed local address: the scheme http or https, then the host
    localhost or 127.0.0.1, then the end, a port or a path. *)
Fixpoint strip_prefix (p s : string) : option string :=
  match p, s with
  | EmptyString, _ => Some s
  | String a p', String b s' =>
      if Ascii.eqb a b then strip_prefix p' s' else None
  | String _ _, EmptyString => None
  end.

Fixpoint host_of (s : string) : string :=
  match s with
  | String a rest =>
      if Ascii.eqb a ":" || Ascii.eqb a "/" then "" else String a (host_of rest)
  | EmptyString => ""
  end.

Definition local_host (h : string) : bool :=
  String.eqb h "localhost" || String.eqb h "127.0.0.1".

Definition local_address (url : string) : bool :=
  match strip_prefix "http://" url, strip_prefix "https://" url with
  | Some rest, _ => local_host (host_of rest)
  | None, Some rest => local_host (host_of rest)
  | None, None => false
  end.

(** Reading a trace: the GET requests to [url], and the part of the trace
    that precedes the moment the request to [url] settled. *)
Definition is_get (url : string) (e : Event) : bool :=
  match e with
  | HttpGet u => String.eqb u url
  | _ => false
  end.

Definition count_get (url : string) (log : list Event) : nat :=
  length (List.filter (is_get url) log).

Definition is_settled (url : string) (e : Event) : bool :=
  match e with
  | Settled u => String.eqb u url
  | _ => false
  end.

Fixpoint before_settled (url : string) (log : list Event) : list Event :=
  match log with
  | [] => []
  | e :: rest => if is_settled url e then [] else e :: before_settled url rest
  end.

Definition is_alert (e : Event) : bool :=
  match e with
  | Alert _ => true
  | _ => false
  end.

(** What C2 asks of the trace of a usage-logging handler that wrote to
    [write]: one GET of the medications list, one GET of the usage history,
    none of them before the write settled. *)
Definition refetches_both_after_write
  (write meds usage : string) (log : list Event) : Prop :=
  count_get meds log = 1%nat /\
  count_get usage log = 1%nat /\
  count_get meds (before_settled write log) = 0%nat /\
  count_get usage (before_settled write log) = 0%nat.

(** A rejection by the backend, or no answer at all. *)
Definition fetch_rejects (out : FetchOutcome) : Prop :=
  match out with
  | FetchRejected => True
  | FetchResolved ok _ => ok = false
  end.

Definition axios_rejects (out : AxiosOutcome) : Prop :=
  match out with
  | AxiosRejected _ => True
  | AxiosResolved _ => False
  end.

(** A non-empty message. *)
Definition is_message (v : value) : Prop :=
  exists s, v = JStr s /\ s <> "".

(** ** Stock status *)

Lemma Zeqb_cases (a b : Z) : (a =? b)%Z = true /\ a = b \/ (a =? b)%Z = false /\ a <> b.
Proof. destruct (Z.eqb_spec a b); auto. Qed.

Lemma Zleb_cases (a b : Z) : (a <=? b)%Z = true /\ a <= b \/ (a <=? b)%Z = false /\ b < a.
Proof. destruct (Z.leb_spec a b); auto. Qed.

Ltac stock_cases med :=
  destruct (Zeqb_cases (current_stock med) 0) as [[?E ?H]|[?E ?H]];
  destruct (Zleb_cases (current_stock med) (minimum_threshold med))
    as [[?E ?H]|[?E ?H]].

(** C1. For a medication with a non-negative stock, the status derived by
    every version is the critical one (Out of Stock) iff the stock is 0,
    the low one (Low Stock) iff 0 < stock <= threshold, and the ok one
    (In Stock) in every other case; the three outcomes are pairwise
    different and one of them always applies. *)
Theorem C1_stock_status (med : Medication) :
  0 <= current_stock med ->
  let cs := current_stock med in
  let mt := minimum_threshold med in
  ((App.getStockStatus med = App_critical <-> cs = 0) /\
   (App.getStockStatus med = App_low <-> 0 < cs <= mt) /\
   (App.getStockStatus med = App_ok <-> ~ cs = 0 /\ ~ 0 < cs <= mt)) /\
  ((Part000.getStockStatus med = Part000_critical <-> cs = 0) /\
   (Part000.getStockStatus med = Part000_low <-> 0 < cs <= mt) /\
   (Part000.getStockStatus med = Part000_ok <-> ~ cs = 0 /\ ~ 0 < cs <= mt)) /\
  ((Part001_row med = Part001_critical <-> cs = 0) /\
   (Part001_row med = Part001_low <-> 0 < cs <= mt) /\
   (Part001_row med = Part001_ok <-> ~ cs = 0 /\ ~ 0 < cs <= mt)) /\
  (App_critical <> App_low /\ App_critical <> App_ok /\ App_low <> App_ok) /\
  (Part000_critical <> Part000_low /\ Part000_critical <> Part000_ok /\
   Part000_low <> Part000_ok) /\
  (Part001_critical <> Part001_low /\ Part001_critical <> Part001_ok /\
   Part001_low <> Part001_ok).
Proof.
  intros Hnonneg cs mt. subst cs mt.
  unfold App.getStockStatus, Part000.getStockStatus, Part001_row,
    Part001.stockBadges, Part001.stockColor, Part001.isCritical,
    Part001.isLowStock.
  stock_cases med; rewrite ?E, ?E0; cbn [negb andb app];
    repeat split; intros; try discriminate; try lia; try reflexivity.
Qed.

(** The scenario of the specification, through [C1_stock_status]. *)
Lemma C1_stock_status_scenario :
  0 <= current_stock (med_of 3 5) /\
  App.getStockStatus (med_of 0 5) = App_critical /\
  Part000.getStockStatus (med_of 3 5) = Part000_low /\
  Part001_row (med_of 10 5) = Part001_ok.
Proof.
  split; [simpl; lia |].
  split; [apply (C1_stock_status (med_of 0 5)); simpl; lia |].
  split; [apply (C1_stock_status (med_of 3 5)); simpl; lia |].
  apply (C1_stock_status (med_of 10 5)); simpl; lia.
Defined.

(** ** Logout *)

(** C3. Whatever the session was (token, profile, storage content, ambient
    header), after [logout] the token is cleared, the profile is cleared
    and storage holds no token; the axios versions also drop the
    credential header, which is where the third version keeps its token. *)
Theorem C3_logout_clears
  (a : App.Session) (b : Part000.Session) (c : Part001.Session) :
  let a' := state (App.logout a) in
  let b' := state (Part000.logout b) in
  let c' := state (Part001.logout c) in
  (App.token a' = JNull /\ App.user a' = JNull /\
   App.localStorage a' !! "token" = None /\
   getItem "token" (App.localStorage a') = JNull) /\
  (Part000.token b' = JNull /\ Part000.user b' = JNull /\
   Part000.localStorage b' !! "token" = None /\
   Part000.headers b' !! "Authorization" = None) /\
  (Part001.user c' = JNull /\
   Part001.localStorage c' !! "token" = None /\
   Part001.headers c' !! "Authorization" = None).
Proof.
  cbn. unfold getItem, removeItem.
  rewrite !lookup_delete_eq. repeat split; reflexivity.
Qed.

(** [logout] touches no other key of the storage. *)
Lemma logout_keeps_other_keys
  (a : App.Session) (b : Part000.Session) (c : Part001.Session) (k : string) :
  k <> "token" ->
  App.localStorage (state (App.logout a)) !! k = App.localStorage a !! k /\
  Part000.localStorage (state (Part000.logout b)) !! k
    = Part000.localStorage b !! k /\
  Part001.localStorage (state (Part001.logout c)) !! k
    = Part001.localStorage c !! k.
Proof.
  intros Hk. cbn. unfold removeItem.
  rewrite !lookup_delete_ne by congruence. auto.
Qed.

(** ** useAuth *)

(** C9. Outside every [AuthProvider] the context value is absent and
    [useAuth] throws its error; directly inside an [AuthProvider], whatever
    the session and whatever encloses the provider, it returns the
    provider's value and does not throw. *)
Theorem C9_useAuth_guard
  (env : option string)
  (a : App.Session) (b : Part000.Session) (c : Part001.Session)
  (ao : list App.Context) (bo : list Part000.Context)
  (co : list Part001.Context) :
  let err := mkError "useAuth must be used within an AuthProvider" in
  (App.useAuth [] = inl err /\
   App.useAuth (App.CtxUndefined :: ao) = inl err /\
   App.useAuth (App.AuthProvider_value a :: ao)
     = inr (App.AuthProvider_value a)) /\
  (Part000.useAuth [] = inl err /\
   Part000.useAuth (Part000.CtxUndefined :: bo) = inl err /\
   Part000.useAuth (Part000.AuthProvider_value env b :: bo)
     = inr (Part000.AuthProvider_value env b)) /\
  (Part001.useAuth [] = inl err /\
   Part001.useAuth (Part001.CtxUndefined :: co) = inl err /\
   Part001.useAuth (Part001.AuthProvider_value c :: co)
     = inr (Part001.AuthProvider_value c)).
Proof. cbn. repeat split; reflexivity. Qed.

(** [useAuth] throws exactly when the nearest context value is absent. *)
Lemma useAuth_throws_iff (ao : list App.Context)
  (bo : list Part000.Context) (co : list Part001.Context) :
  ((exists e, App.useAuth ao = inl e)
     <-> useContext App.AuthContext ao = App.CtxUndefined) /\
  ((exists e, Part000.useAuth bo = inl e)
     <-> useContext Part000.AuthContext bo = Part000.CtxUndefined) /\
  ((exists e, Part001.useAuth co = inl e)
     <-> useContext Part001.AuthContext co = Part001.CtxUndefined).
Proof.
  unfold App.useAuth, Part000.useAuth, Part001.useAuth.
  repeat split.
  all: try (intros [e He]; destruct (useContext _ _); simpl in He;
            [reflexivity | discriminate]).
  all: intros ->; simpl; eauto.
Qed.

(** ** The medication selector of the usage form *)

Lemma in_positive_stock (medications : list Medication) (med : Medication) :
  In med (List.filter (fun m => (current_stock m >? 0)%Z) medications)
  <-> In med medications /\ 0 < current_stock med.
Proof.
  rewrite filter_In.
  destruct (Z.gtb_spec (current_stock med) 0); intuition (try lia; discriminate).
Qed.

(** Within a list whose ids are all different, the id tells the
    medication. *)
Lemma med_id_tells (medications : list Medication) (m1 m2 : Medication) :
  List.NoDup (map med_id medications) ->
  In m1 medications -> In m2 medications ->
  med_id m1 = med_id m2 -> m1 = m2.
Proof.
  induction medications as [| m ms IH]; simpl; [contradiction |].
  intros Hnd H1 H2 Hid. inversion Hnd as [| ? ? Hnotin Hnd']; subst.
  destruct H1 as [-> | H1], H2 as [-> | H2]; auto.
  - exfalso. apply Hnotin. rewrite Hid. apply in_map. exact H2.
  - exfalso. apply Hnotin. rewrite <- Hid. apply in_map. exact H1.
Qed.

(** The write that each usage handler issues, whatever its outcome: a
    POST to the path of the medication id held by the form. *)
Lemma usage_post_url (env : option string) (fo : FetchOutcome)
  (ao : AxiosOutcome) (a : App.UsageTab) (b : Part000.UsageTab)
  (c : Part001.MedicationsContent) :
  (exists body,
     In (HttpPost (App.API_BASE_URL env ++ "/medications/"
                     ++ App.selectedMedication a ++ "/use") body)
        (trace (App.handleLogUsage env fo a))) /\
  (exists body,
     In (HttpPost (Part000.API_BASE_URL env ++ "/medications/"
                     ++ Part000.selectedMedication b ++ "/use") body)
        (trace (Part000.handleLogUsage env ao b))) /\
  (exists body,
     In (HttpPost (Part001.API env ++ "/medications/"
                     ++ Part001.medicationId (Part001.usageForm c) ++ "/use")
           body)
        (trace (Part001.handleUsageSubmit env ao c))).
Proof.
  unfold App.handleLogUsage, Part000.handleLogUsage,
    Part001.handleUsageSubmit.
  repeat apply conj.
  - destruct fo as [| ok json]; [| destruct ok; destruct json as [data |]];
      unfold bind, gets, modify, emit, ret, trace; simpl;
      try destruct (prop data "detail"); simpl; eexists; left; reflexivity.
  - destruct ao; unfold bind, gets, modify, emit, ret, trace; simpl;
      eexists; left; reflexivity.
  - destruct ao; unfold bind, gets, modify, emit, ret, trace; simpl;
      eexists; left; reflexivity.
Qed.

(** C10. The selector of the third version offers, after its placeholder,
    one option for each medication whose stock is above zero and no other:
    the value of the option is the id of the medication and its label
    shows the name and the stock. Choosing an offered option and
    submitting therefore posts to the id of a medication with stock above
    zero, and, the ids being distinct, never to the id of an out-of-stock
    medication. The selectors of the other two versions offer one option
    for every medication of the list, whatever its stock, and choosing the
    option of any medication, out of stock or not, posts to its id. *)
Theorem C10_usage_selector (env : option string)
  (medications : list Medication) :
  let positive := List.filter (fun m => (current_stock m >? 0)%Z) medications in
  let offered1 := tail (Part001.medicationSelect medications) in
  let offered_a := tail (App.medicationSelect medications) in
  let offered0 := tail (Part000.medicationSelect medications) in
  (head (Part001.medicationSelect medications)
     = Some {| opt_value := ""; opt_label := "Select medication" |} /\
   map opt_value offered1 = map med_id positive /\
   (forall o, In o offered1 <->
              exists med, In med medications /\ 0 < current_stock med /\
                o = {| opt_value := med_id med;
                       opt_label := name med ++ " (Stock: "
                                    ++ pretty (current_stock med) ++ ")" |}) /\
   (forall o c ao, In o offered1 ->
      exists med body,
        In med medications /\ 0 < current_stock med /\
        In (HttpPost (Part001.API env ++ "/medications/" ++ med_id med
                        ++ "/use") body)
           (trace (Part001.handleUsageSubmit env ao
                     (Part001.onMedicationChange (opt_value o) c)))) /\
   (List.NoDup (map med_id medications) ->
    forall med, In med medications -> current_stock med <= 0 ->
                ~ In (med_id med) (map opt_value offered1))) /\
  (map opt_value offered_a = map med_id medications /\
   (forall o, In o offered_a <->
              exists med, In med medications /\
                o = {| opt_value := med_id med;
                       opt_label := name med ++ " (Available: "
                                    ++ pretty (current_stock med) ++ " "
                                    ++ med_unit med ++ ")" |}) /\
   (forall med t fo, In med medications ->
      In (med_id med) (map opt_value offered_a) /\
      exists body,
        In (HttpPost (App.API_BASE_URL env ++ "/medications/" ++ med_id med
                        ++ "/use") body)
           (trace (App.handleLogUsage env fo
                     (App.setSelectedMedication (med_id med) t))))) /\
  (map opt_value offered0 = map med_id medications /\
   (forall o, In o offered0 <->
              exists med, In med medications /\
                o = {| opt_value := med_id med;
                       opt_label := name med ++ " (Available: "
                                    ++ pretty (current_stock med) ++ " "
                                    ++ med_unit med ++ ")" |}) /\
   (forall med t ao, In med medications ->
      In (med_id med) (map opt_value offered0) /\
      exists body,
        In (HttpPost (Part000.API_BASE_URL env ++ "/medications/"
                        ++ med_id med ++ "/use") body)
           (trace (Part000.handleLogUsage env ao
                     (Part000.setSelectedMedication (med_id med) t))))).
Proof.
  cbv zeta.
  unfold Part001.medicationSelect, App.medicationSelect,
    Part000.medicationSelect; simpl.
  assert (Hoffered : forall o,
            In o (map Part001.medicationOption
                    (List.filter (fun m => (current_stock m >? 0)%Z)
                       medications)) <->
            exists med, In med medications /\ 0 < current_stock med /\
              o = Part001.medicationOption med).
  { intros o. rewrite in_map_iff. split.
    - intros (med & <- & Hin). apply in_positive_stock in Hin as [Hin Hpos].
      exists med. auto.
    - intros (med & Hin & Hpos & ->). exists med. split; [reflexivity |].
      apply in_positive_stock. auto. }
  split; [| split].
  - split; [reflexivity |]. split; [| split; [| split]].
    + rewrite map_map. reflexivity.
    + exact Hoffered.
    + intros o c ao Ho. apply Hoffered in Ho as (med & Hin & Hpos & ->).
      destruct (usage_post_url env FetchRejected ao
                  (App.setSelectedMedication "" {| App.selectedMedication := "";
                     App.quantity := ""; App.notes := "";
                     App.isLogging := false |})
                  (Part000.setSelectedMedication "" {|
                     Part000.selectedMedication := ""; Part000.quantity := "";
                     Part000.notes := ""; Part000.isLogging := false |})
                  (Part001.onMedicationChange
                     (opt_value (Part001.medicationOption med)) c))
        as (_ & _ & body & Hbody).
      exists med, body. auto.
    + intros Hnd med Hin Hzero Hoff.
      rewrite map_map in Hoff. simpl in Hoff.
      apply in_map_iff in Hoff as (med' & Hid & Hin').
      apply in_positive_stock in Hin' as [Hin' Hpos].
      assert (med' = med) by (eapply med_id_tells; eauto).
      subst. lia.
  - split; [rewrite map_map; reflexivity |]. split.
    + intros o. rewrite in_map_iff. split.
      * intros (med & <- & Hin). exists med. auto.
      * intros (med & Hin & ->). exists med. auto.
    + intros med t fo Hin. split.
      * rewrite map_map. simpl. apply in_map_iff. exists med. auto.
      * destruct (usage_post_url env fo (AxiosRejected None)
                    (App.setSelectedMedication (med_id med) t)
                    (Part000.setSelectedMedication "" {|
                       Part000.selectedMedication := "";
                       Part000.quantity := ""; Part000.notes := "";
                       Part000.isLogging := false |})
                    {| Part001.usageForm := {| Part001.medicationId := "";
                         Part001.quantity := ""; Part001.notes := "" |};
                       Part001.submitting := false |})
          as ((body & Hbody) & _). exists body. exact Hbody.
  - split; [rewrite map_map; reflexivity |]. split.
    + intros o. rewrite in_map_iff. split.
      * intros (med & <- & Hin). exists med. auto.
      * intros (med & Hin & ->). exists med. auto.
    + intros med t ao Hin. split.
      * rewrite map_map. simpl. apply in_map_iff. exists med. auto.
      * destruct (usage_post_url env FetchRejected ao
                    {| App.selectedMedication := ""; App.quantity := "";
                       App.notes := ""; App.isLogging := false |}
                    (Part000.setSelectedMedication (med_id med) t)
                    {| Part001.usageForm := {| Part001.medicationId := "";
                         Part001.quantity := ""; Part001.notes := "" |};
                       Part001.submitting := false |})
          as (_ & (body & Hbody) & _). exists body. exact Hbody.
Qed.

(** The selectors on a list with an out-of-stock and a stocked medication
    of different ids, through [C10_usage_selector]: the third version
    offers the stocked one only and never the id of the other. *)
Lemma C10_usage_selector_example :
  let out := {| med_id := "m0"; name := "Amoxicillin"; description := "";
                med_unit := "capsules"; current_stock := 0;
                minimum_threshold := 5 |} in
  let medications := [out; med_of 3 5] in
  map opt_value (tail (Part001.medicationSelect medications)) = ["m1"] /\
  ~ In "m0" (map opt_value (tail (Part001.medicationSelect medications))) /\
  In "m0" (map opt_value (tail (App.medicationSelect medications))) /\
  In "m0" (map opt_value (tail (Part000.medicationSelect medications))).
Proof.
  cbv zeta.
  pose proof (C10_usage_selector None
                [{| med_id := "m0"; name := "Amoxicillin"; description := "";
                    med_unit := "capsules"; current_stock := 0;
                    minimum_threshold := 5 |}; med_of 3 5])
    as ((_ & Hvalues & _ & _ & Hnever) & (_ & _ & Ha) & (_ & _ & Hb)).
  split; [rewrite Hvalues; reflexivity |]. split; [| split].
  - refine (Hnever _ {| med_id := "m0"; name := "Amoxicillin";
                        description := ""; med_unit := "capsules";
                        current_stock := 0; minimum_threshold := 5 |} _ _).
    + repeat constructor; simpl; intuition discriminate.
    + left. reflexivity.
    + simpl. lia.
  - destruct (Ha {| med_id := "m0"; name := "Amoxicillin";
                     description := ""; med_unit := "capsules";
                     current_stock := 0; minimum_threshold := 5 |}
                {| App.selectedMedication := ""; App.quantity := "";
                   App.notes := ""; App.isLogging := false |}
                FetchRejected (or_introl eq_refl)) as [H _].
    exact H.
  - destruct (Hb {| med_id := "m0"; name := "Amoxicillin";
                     description := ""; med_unit := "capsules";
                     current_stock := 0; minimum_threshold := 5 |}
                {| Part000.selectedMedication := ""; Part000.quantity := "";
                   Part000.notes := ""; Part000.isLogging := false |}
                (AxiosRejected None) (or_introl eq_refl)) as [H _].
    exact H.
Defined.

(** An out-of-stock medication is offered by the first two versions and
    not by the third. *)
Example selector_out_of_stock :
  tail (App.medicationSelect [med_of 0 5])
    = [{| opt_value := "m1";
          opt_label := "Paracetamol (Available: 0 tablets)" |}] /\
  tail (Part000.medicationSelect [med_of 0 5])
    = [{| opt_value := "m1";
          opt_label := "Paracetamol (Available: 0 tablets)" |}] /\
  tail (Part001.medicationSelect [med_of 0 5; med_of 3 5])
    = [{| opt_value := "m1"; opt_label := "Paracetamol (Stock: 3)" |}].
Proof. vm_compute. repeat split; reflexivity. Qed.

(** ** The low-stock list of the dashboard *)

Lemma in_at_or_below_threshold (medications : list Medication)
  (med : Medication) :
  In med (List.filter
            (fun m => (current_stock m <=? minimum_threshold m)%Z) medications)
  <-> In med medications /\ current_stock med <= minimum_threshold med.
Proof.
  rewrite filter_In.
  destruct (Z.leb_spec (current_stock med) (minimum_threshold med));
    intuition (try lia; discriminate).
Qed.

(** C8, as the code has it. [lowStockMeds] holds exactly the medications
    whose stock is at or below the threshold, in the order of the list;
    a medication with stock 0 and a non-negative threshold is one of them. *)
Theorem C8_lowStockMeds_at_or_below (medications : list Medication) :
  (forall med, In med (Part000.lowStockMeds medications) <->
               In med medications /\
               current_stock med <= minimum_threshold med) /\
  (forall med, In med (Part001.lowStockMeds medications) <->
               In med medications /\
               current_stock med <= minimum_threshold med) /\
  (forall med, In med medications -> current_stock med = 0 ->
               0 <= minimum_threshold med ->
               In med (Part000.lowStockMeds medications) /\
               In med (Part001.lowStockMeds medications)) /\
  sublist (Part000.lowStockMeds medications) medications /\
  sublist (Part001.lowStockMeds medications) medications.
Proof.
  unfold Part000.lowStockMeds, Part001.lowStockMeds.
  split; [| split; [| split; [| split]]].
  - intros med. apply in_at_or_below_threshold.
  - intros med. apply in_at_or_below_threshold.
  - intros med Hin Hzero Hthr.
    split; apply in_at_or_below_threshold; split; auto; lia.
  - induction medications as [| m ms IH]; simpl; [constructor |].
    destruct (_ <=? _)%Z; [apply sublist_skip | apply sublist_cons]; exact IH.
  - induction medications as [| m ms IH]; simpl; [constructor |].
    destruct (_ <=? _)%Z; [apply sublist_skip | apply sublist_cons]; exact IH.
Qed.

(** C8, as stated, fails: the medication of the scenario with stock 0 and
    threshold 5 is in the low-stock list of both versions that compute it. *)
Lemma C8_out_of_stock_is_listed :
  current_stock (med_of 0 5) = 0 /\
  Part000.lowStockMeds [med_of 0 5; med_of 10 5] = [med_of 0 5] /\
  Part001.lowStockMeds [med_of 0 5; med_of 10 5] = [med_of 0 5] /\
  In (med_of 0 5) (Part000.lowStockMeds [med_of 0 5; med_of 10 5]) /\
  In (med_of 0 5) (Part001.lowStockMeds [med_of 0 5; med_of 10 5]).
Proof. vm_compute. intuition. Qed.

(** ** Base URL of the API *)

(** The first two versions fall back to the default also when the variable
    is set to the empty text; otherwise they use the variable as it is. *)
Lemma API_BASE_URL_set (u : string) :
  u <> "" ->
  App.API_BASE_URL (Some u) = u /\ Part000.API_BASE_URL (Some u) = u.
Proof.
  intros Hu. unfold App.API_BASE_URL, Part000.API_BASE_URL, or_else; simpl.
  destruct (String.eqb_spec u ""); [contradiction | auto].
Qed.

(** C7, as the code has it. With the variable absent, the base URL of the
    first two versions is http://localhost:8000/api, a well-formed local
    address; the third version has no default: its base URL is the text of
    the variable followed by /api, and with the variable absent that text
    is the word undefined. *)
Theorem C7_default_base_url :
  App.API_BASE_URL None = "http://localhost:8000/api" /\
  Part000.API_BASE_URL None = "http://localhost:8000/api" /\
  local_address (App.API_BASE_URL None) = true /\
  local_address (Part000.API_BASE_URL None) = true /\
  (forall u, Part001.API (Some u) = u ++ "/api") /\
  Part001.API None = "undefined/api".
Proof. repeat split; reflexivity. Qed.

(** C7, as stated, fails on the third version: with the variable absent its
    base URL is not a local address. *)
Lemma C7_third_version_has_no_default :
  Part001.API None = "undefined/api" /\
  local_address (Part001.API None) = false.
Proof. split; reflexivity. Qed.

(** ** Startup *)







(** ** Logging usage *)

Lemma eqb_append_head (a x y : string) :
  String.eqb (a ++ x) (a ++ y) = String.eqb x y.
Proof.
  induction a as [| c a IH]; simpl; [reflexivity |].
  rewrite Ascii.eqb_refl. exact IH.
Qed.

Lemma Part000_handleLogUsage_ok (env : option string)
  (t : Part000.UsageTab) (data : value) :
  let url := Part000.API_BASE_URL env ++ "/medications/"
               ++ Part000.selectedMedication t ++ "/use" in
  Part000.handleLogUsage env (AxiosResolved data) t =
    (tt,
     {| Part000.selectedMedication := ""; Part000.quantity := "";
        Part000.notes := ""; Part000.isLogging := false |},
     [HttpPost url (JObj [("quantity_used", parseInt (Part000.quantity t));
                          ("notes", JStr (Part000.notes t))]);
      Settled url;
      HttpGet (Part000.API_BASE_URL env ++ "/medications");
      HttpGet (Part000.API_BASE_URL env ++ "/usage");
      Alert "Usage logged successfully!"]).
Proof. reflexivity. Qed.

Lemma Part000_handleLogUsage_failed (env : option string)
  (t : Part000.UsageTab) (response : option value) :
  let url := Part000.API_BASE_URL env ++ "/medications/"
               ++ Part000.selectedMedication t ++ "/use" in
  Part000.handleLogUsage env (AxiosRejected response) t =
    (tt,
     {| Part000.selectedMedication := Part000.selectedMedication t;
        Part000.quantity := Part000.quantity t;
        Part000.notes := Part000.notes t; Part000.isLogging := false |},
     [HttpPost url (JObj [("quantity_used", parseInt (Part000.quantity t));
                          ("notes", JStr (Part000.notes t))]);
      Settled url;
      Alert (to_string (or_else (error_detail response)
                                (JStr "Failed to log usage")))]).
Proof. reflexivity. Qed.

Lemma Part001_handleUsageSubmit_ok (env : option string)
  (c : Part001.MedicationsContent) (data : value) :
  let form := Part001.usageForm c in
  let url := Part001.API env ++ "/medications/"
               ++ Part001.medicationId form ++ "/use" in
  Part001.handleUsageSubmit env (AxiosResolved data) c =
    (tt,
     {| Part001.usageForm := {| Part001.medicationId := "";
                                Part001.quantity := "";
                                Part001.notes := "" |};
        Part001.submitting := false |},
     [HttpPost url (JObj [("quantity_used", parseInt (Part001.quantity form));
                          ("notes", JStr (Part001.notes form))]);
      Settled url;
      Alert "Usage logged successfully!";
      HttpGet (Part001.API env ++ "/medications")]).
Proof. reflexivity. Qed.

Lemma Part001_handleUsageSubmit_failed (env : option string)
  (c : Part001.MedicationsContent) (response : option value) :
  let form := Part001.usageForm c in
  let url := Part001.API env ++ "/medications/"
               ++ Part001.medicationId form ++ "/use" in
  Part001.handleUsageSubmit env (AxiosRejected response) c =
    (tt,
     {| Part001.usageForm := form; Part001.submitting := false |},
     [HttpPost url (JObj [("quantity_used", parseInt (Part001.quantity form));
                          ("notes", JStr (Part001.notes form))]);
      Settled url;
      Alert (to_string (or_else (error_detail response)
                                (JStr "Failed to log usage")))]).
Proof. reflexivity. Qed.

(** The handler of the first version asks for nothing after its write. *)
Lemma App_handleLogUsage_ok (env : option string) (t : App.UsageTab)
  (json : option value) :
  let url := App.API_BASE_URL env ++ "/medications/"
               ++ App.selectedMedication t ++ "/use" in
  App.handleLogUsage env (FetchResolved true json) t =
    (tt,
     {| App.selectedMedication := ""; App.quantity := "";
        App.notes := ""; App.isLogging := false |},
     [HttpPost url (JObj [("medication_id", JStr (App.selectedMedication t));
                          ("quantity_used", parseInt (App.quantity t));
                          ("notes", JStr (App.notes t))]);
      Settled url;
      Alert "Usage logged successfully!"]).
Proof. reflexivity. Qed.

Ltac count_gets :=
  unfold count_get; simpl;
  rewrite ?String.eqb_refl, ?eqb_append_head; simpl;
  rewrite ?String.eqb_refl; simpl.

(** C2, as the code has it. In the second version a successful
    usage-logging action asks once for the medications list and once for
    the usage history, both after the write settled. In the third version
    it asks once for the medications list, after the write settled, and
    not for the usage history, which the usage tab loads when it mounts.
    A failed write is followed by no re-fetch in either. *)
Theorem C2_refetch_after_write (env : option string)
  (t : Part000.UsageTab) (c : Part001.MedicationsContent)
  (data : value) (response : option value) :
  let write0 := Part000.API_BASE_URL env ++ "/medications/"
                  ++ Part000.selectedMedication t ++ "/use" in
  let meds0 := Part000.API_BASE_URL env ++ "/medications" in
  let usage0 := Part000.API_BASE_URL env ++ "/usage" in
  let ok0 := trace (Part000.handleLogUsage env (AxiosResolved data) t) in
  let ko0 := trace (Part000.handleLogUsage env (AxiosRejected response) t) in
  let write1 := Part001.API env ++ "/medications/"
                  ++ Part001.medicationId (Part001.usageForm c) ++ "/use" in
  let meds1 := Part001.API env ++ "/medications" in
  let usage1 := Part001.API env ++ "/usage" in
  let ok1 := trace (Part001.handleUsageSubmit env (AxiosResolved data) c) in
  let ko1 := trace (Part001.handleUsageSubmit env (AxiosRejected response) c) in
  refetches_both_after_write write0 meds0 usage0 ok0 /\
  (count_get meds1 ok1 = 1%nat /\ count_get usage1 ok1 = 0%nat /\
   count_get meds1 (before_settled write1 ok1) = 0%nat) /\
  (count_get meds0 ko0 = 0%nat /\ count_get usage0 ko0 = 0%nat) /\
  (count_get meds1 ko1 = 0%nat /\ count_get usage1 ko1 = 0%nat).
Proof.
  cbv zeta.
  rewrite Part000_handleLogUsage_ok, Part000_handleLogUsage_failed,
    Part001_handleUsageSubmit_ok, Part001_handleUsageSubmit_failed.
  unfold refetches_both_after_write, trace.
  repeat split; count_gets; reflexivity.
Qed.

(** C2, as stated, fails on the third version: a successful submission of
    the form for medication m1 asks for the medications list and never for
    the usage history. *)
Lemma C2_third_version_skips_usage_history :
  let c := {| Part001.usageForm := {| Part001.medicationId := "m1";
                                      Part001.quantity := "2";
                                      Part001.notes := "" |};
              Part001.submitting := false |} in
  let env := Some "http://localhost:8000" in
  let log := trace (Part001.handleUsageSubmit env (AxiosResolved (JObj [])) c) in
  log = [HttpPost "http://localhost:8000/api/medications/m1/use"
           (JObj [("quantity_used", JNum 2); ("notes", JStr "")]);
         Settled "http://localhost:8000/api/medications/m1/use";
         Alert "Usage logged successfully!";
         HttpGet "http://localhost:8000/api/medications"] /\
  count_get "http://localhost:8000/api/usage" log = 0%nat /\
  ~ refetches_both_after_write
      "http://localhost:8000/api/medications/m1/use"
      "http://localhost:8000/api/medications"
      "http://localhost:8000/api/usage" log.
Proof.
  cbv zeta. split; [reflexivity |]. split; [reflexivity |].
  intros (_ & Husage & _). vm_compute in Husage. discriminate Husage.
Qed.

(** ** Login *)

Ltac run_auth :=
  unfold App.login, App.initializeAdmin, Part000.login,
    Part000.initializeAdmin, Part001.login,
    bind, gets, modify, emit, ret, result, state, trace; simpl.

(** A well-formed acceptance: the body carries the non-empty token [tok]
    and a profile under its two keys. Every version then reports success,
    keeps [tok] in storage (and in its token state or ambient header) and
    holds the profile. *)
Lemma login_accepted (env : option string) (u p : string)
  (a : App.Session) (b : Part000.Session) (c : Part001.Session)
  (fields : list (string * value)) (tok : string) :
  assoc "access_token" fields = JStr tok ->
  tok <> "" ->
  truthy (assoc "user" fields) = true ->
  let body := JObj fields in
  let ra := App.login env u p (FetchResolved true (Some body)) a in
  let rb := Part000.login env u p (AxiosResolved body) b in
  let rc := Part001.login env u p (AxiosResolved body) c in
  (result ra = Success None /\
   App.localStorage (state ra) !! "token" = Some tok /\
   truthy (App.token (state ra)) = true /\
   App.user (state ra) = assoc "user" fields /\
   truthy (App.user (state ra)) = true) /\
  (result rb = Success None /\
   Part000.localStorage (state rb) !! "token" = Some tok /\
   truthy (Part000.token (state rb)) = true /\
   Part000.headers (state rb) !! "Authorization" = Some ("Bearer " ++ tok) /\
   Part000.user (state rb) = assoc "user" fields /\
   truthy (Part000.user (state rb)) = true) /\
  (result rc = Success None /\
   Part001.localStorage (state rc) !! "token" = Some tok /\
   Part001.headers (state rc) !! "Authorization" = Some ("Bearer " ++ tok) /\
   Part001.user (state rc) = assoc "user" fields /\
   truthy (Part001.user (state rc)) = true).
Proof.
  intros Htok Hne Huser. run_auth. unfold opt_prop; simpl. rewrite Htok.
  unfold setItem; simpl. rewrite !lookup_insert_eq, Huser.
  destruct (String.eqb_spec tok ""); [contradiction |].
  repeat split; reflexivity.
Qed.

(** A rejection, or no answer, leaves the session of every version as it
    was and is reported as a failure. *)
Lemma login_rejected_keeps_session (env : option string) (u p : string)
  (a : App.Session) (b : Part000.Session) (c : Part001.Session)
  (fo : FetchOutcome) (ao : AxiosOutcome) :
  fetch_rejects fo ->
  axios_rejects ao ->
  (state (App.login env u p fo a) = a /\
   success (result (App.login env u p fo a)) = false) /\
  (state (Part000.login env u p ao b) = b /\
   success (result (Part000.login env u p ao b)) = false) /\
  (state (Part001.login env u p ao c) = c /\
   success (result (Part001.login env u p ao c)) = false).
Proof.
  intros Hfo Hao.
  destruct ao as [data | response]; [contradiction |].
  destruct fo as [| ok [body |]]; simpl in Hfo; subst; run_auth;
    try destruct (prop body "detail"); auto.
Qed.

(** [detail || fallback] is the detail when that is a non-empty text and
    the fallback when the detail is missing or empty. *)
Lemma or_else_message (d : value) (fallback : string) :
  fallback <> "" ->
  (d = JUndefined \/ exists s, d = JStr s) ->
  is_message (or_else d (JStr fallback)).
Proof.
  intros Hf [-> | [s ->]]; unfold or_else; simpl.
  - exists fallback. auto.
  - destruct (String.eqb_spec s ""); simpl.
    + exists fallback. auto.
    + exists s. auto.
Qed.

(** In the axios versions the failure of a login always carries something
    truthy, and a non-empty message whenever the detail is a text or is
    missing. *)
Lemma axios_login_error (env : option string) (u p : string)
  (b : Part000.Session) (c : Part001.Session) (response : option value) :
  let eb := error (result (Part000.login env u p (AxiosRejected response) b)) in
  let ec := error (result (Part001.login env u p (AxiosRejected response) c)) in
  truthy eb = true /\ truthy ec = true /\
  ((error_detail response = JUndefined \/
    exists s, error_detail response = JStr s) ->
   is_message eb /\ is_message ec).
Proof.
  run_auth. unfold or_else.
  split; [| split].
  - destruct (truthy (error_detail response)) eqn:E; [exact E | reflexivity].
  - destruct (truthy (error_detail response)) eqn:E; [exact E | reflexivity].
  - intros H. split; apply (or_else_message _ "Login failed"); auto; discriminate.
Qed.

(** C4, at the input where the first version departs from it. The backend
    turns the login down with a JSON body that has no detail: the session
    is left as it was, and the result is a failure whose error is
    [undefined], not a message. *)
Theorem C4_login_rejected_without_detail (env : option string)
  (u p : string) (a : App.Session) :
  let out := FetchResolved false (Some (JObj [])) in
  let r := App.login env u p out a in
  fetch_rejects out /\
  state r = a /\
  result r = Failure JUndefined /\
  ~ is_message (error (result r)).
Proof.
  run_auth. repeat split.
  intros (s & Hs & _). discriminate Hs.
Qed.

(** What the login form of the first version does with that result:
    [result.error.includes] is a TypeError, the handler dies and the form
    stays in its loading state. *)
Lemma App_handleSubmit_dies_without_detail (env : option string)
  (a : App.Session) (f : App.LoginForm) :
  let r := App.handleSubmit env (FetchResolved false (Some (JObj []))) (a, f) in
  result r = None /\
  App.isLoading (state r).2 = true /\
  App.form_error (state r).2 = JUndefined.
Proof. repeat split. Qed.

(** With a detail in the body the same form shows it and goes on. *)
Example App_handleSubmit_with_detail :
  let r := App.handleSubmit None
             (FetchResolved false
                (Some (JObj [("detail", JStr "Invalid credentials")])))
             (App.AuthProvider_init ∅, App.LoginForm_init) in
  result r = Some tt /\
  App.form_error (state r).2 = JStr "Invalid credentials" /\
  App.showInitAdmin (state r).2 = true /\
  App.isLoading (state r).2 = false.
Proof. repeat split. Qed.

(** ** The results of the auth gateway *)

(** C6, as the code has it. The axios versions report the detail of the
    error response whenever it is truthy (a non-empty text, in particular)
    and their fixed non-empty fallback whenever it is missing or falsy
    (empty); the second version's [initializeAdmin] succeeds with the
    response data attached. The fetch version reports the detail of an
    error response that is a JSON object carrying one, succeeds on a 2xx
    answer to [initializeAdmin], and reports the fixed text "Network error"
    when the request fails, when the body is not JSON and when the body is
    [null]. *)
Theorem C6_gateway_result (env : option string) (u p : string)
  (a : App.Session) (b : Part000.Session) (c : Part001.Session) :
  (forall response,
     let d := error_detail response in
     let out := AxiosRejected response in
     (truthy d = true ->
      result (Part000.login env u p out b) = Failure d /\
      result (Part000.initializeAdmin env out b) = Failure d /\
      result (Part001.login env u p out c) = Failure d) /\
     (truthy d = false ->
      result (Part000.login env u p out b) = Failure (JStr "Login failed") /\
      result (Part000.initializeAdmin env out b)
        = Failure (JStr "Failed to initialize admin") /\
      result (Part001.login env u p out c) = Failure (JStr "Login failed"))) /\
  (forall data,
     result (Part000.initializeAdmin env (AxiosResolved data) b)
       = Success (Some data)) /\
  (forall json,
     result (App.initializeAdmin env (FetchResolved true json) a)
       = Success None) /\
  (forall fields d,
     assoc "detail" fields = d -> d <> JUndefined ->
     let out := FetchResolved false (Some (JObj fields)) in
     result (App.login env u p out a) = Failure d /\
     result (App.initializeAdmin env out a) = Failure d) /\
  (result (App.login env u p FetchRejected a) = Failure (JStr "Network error") /\
   result (App.initializeAdmin env FetchRejected a)
     = Failure (JStr "Network error")) /\
  (forall ok,
     result (App.login env u p (FetchResolved ok None) a)
       = Failure (JStr "Network error")) /\
  (result (App.initializeAdmin env (FetchResolved false None) a)
     = Failure (JStr "Network error") /\
   result (App.login env u p (FetchResolved false (Some JNull)) a)
     = Failure (JStr "Network error") /\
   result (App.initializeAdmin env (FetchResolved false (Some JNull)) a)
     = Failure (JStr "Network error")).
Proof.
  repeat apply conj; try reflexivity.
  - intros response d out. subst d out. run_auth. unfold or_else.
    split; intros ->; repeat split; reflexivity.
  - intros fields d <- _ out. subst out. run_auth. split; reflexivity.
  - intros [|]; reflexivity.
Qed.

(** C6, as stated, fails on the axios versions: an error response whose
    detail is present and empty is reported with the fallback text, not
    with the detail. *)
Lemma C6_empty_detail_gets_fallback :
  let body := JObj [("detail", JStr "")] in
  let out := AxiosRejected (Some body) in
  let rb := result (Part000.login None "nurse" "secret" out
                      (Part000.AuthProvider_init ∅ ∅)) in
  let rc := result (Part001.login None "nurse" "secret" out
                      (Part001.AuthProvider_init ∅ ∅)) in
  prop body "detail" = Some (JStr "") /\
  rb = Failure (JStr "Login failed") /\
  rc = Failure (JStr "Login failed") /\
  error rb <> JStr "" /\ error rc <> JStr "".
Proof. cbv zeta. repeat split; discriminate. Qed.

(** The gateway of each version on a rejection that carries the detail
    "Invalid credentials", through [C6_gateway_result]. *)
Lemma C6_gateway_result_example :
  let body := JObj [("detail", JStr "Invalid credentials")] in
  result (Part000.login None "nurse" "secret" (AxiosRejected (Some body))
            (Part000.AuthProvider_init ∅ ∅))
    = Failure (JStr "Invalid credentials") /\
  result (Part001.login None "nurse" "secret" (AxiosRejected None)
            (Part001.AuthProvider_init ∅ ∅))
    = Failure (JStr "Login failed") /\
  result (App.login None "nurse" "secret" (FetchResolved false (Some body))
            (App.AuthProvider_init ∅))
    = Failure (JStr "Invalid credentials").
Proof.
  pose proof (C6_gateway_result None "nurse" "secret"
                (App.AuthProvider_init ∅) (Part000.AuthProvider_init ∅ ∅)
                (Part001.AuthProvider_init ∅ ∅))
    as (Haxios & _ & _ & Hfetch & _).
  cbv zeta. split; [| split].
  - apply (Haxios (Some (JObj [("detail", JStr "Invalid credentials")]))).
    reflexivity.
  - apply (Haxios None). reflexivity.
  - apply (Hfetch [("detail", JStr "Invalid credentials")]
                  (JStr "Invalid credentials")); [reflexivity | discriminate].
Defined.

(** ** Checks of the JavaScript layer on concrete values *)

Example parseInt_examples :
  parseInt " 12px" = JNum 12 /\ parseInt "" = JNaN /\
  parseInt "-0x1f" = JNum (-31) /\ parseInt "abc" = JNaN /\
  parseInt "007" = JNum 7.
Proof. repeat split; reflexivity. Qed.

Example to_string_examples :
  to_string (JArr [JNum 1; JNull; JStr "a"]) = "1,,a" /\
  to_string (JNum (-3)) = "-3" /\
  to_string JUndefined = "undefined" /\
  to_string (JObj [("detail", JStr "x")]) = "[object Object]".
Proof. repeat split; reflexivity. Qed.

Example truthy_examples :
  truthy (JStr "") = false /\ truthy (JStr "0") = true /\
  truthy (JNum 0) = false /\ truthy (JArr []) = true /\
  or_else JUndefined (JStr "Login failed") = JStr "Login failed".
Proof. repeat split; reflexivity. Qed.

Example storage_examples :
  getItem "token" (∅ : gmap string string) = JNull /\
  getItem "token" (setItem "token" (JStr "t0") ∅) = JStr "t0" /\
  getItem "token" (setItem "token" JUndefined ∅) = JStr "undefined" /\
  getItem "token" (removeItem "token" (setItem "token" (JStr "t0") ∅)) = JNull.
Proof. repeat split; reflexivity. Qed.

(** ** Further properties of the session *)

Ltac run_monad :=
  unfold bind, gets, modify, emit, ret, zoom1, zoom2, result, state, trace;
  simpl.

Ltac run_session :=
  unfold App.startup, App.mount, App.effect_on_change, App.effect,
    App.drop_token, App.logout, App.AuthProvider_init,
    Part000.startup, Part000.mount, Part000.effect_on_change,
    Part000.effect, Part000.fetchUserInfo, Part000.logout,
    Part000.AuthProvider_init,
    Part001.startup, Part001.effect, Part001.fetchUserInfo,
    Part001.logout, Part001.AuthProvider_init;
  run_monad;
  unfold App.setLoading, App.setUser, App.setToken, App.withStorage,
    Part000.setLoading, Part000.setUser, Part000.setToken,
    Part000.withStorage, Part000.withHeaders,
    Part001.setLoading, Part001.setUser, Part001.withStorage,
    Part001.withHeaders;
  simpl.

(** Case analysis on the tests left in a goal, rewriting with [E]. *)
Ltac case_ifs E :=
  repeat (try reflexivity;
          match goal with
          | |- context [if ?b then _ else _] =>
              destruct b eqn:?; simpl; rewrite ?E; simpl
          end);
  try reflexivity.

(** Whatever the storage holds and whatever the backend answers, the
    startup of every version ends with the loading flag cleared: the
    loading view is never the final view. *)
Theorem startup_always_resolves (env : option string)
  (ls hs : gmap string string) (fo : FetchOutcome) (ao : AxiosOutcome) :
  (App.loading (state (App.startup env ls fo)) = false /\
   App.AppContent (state (App.startup env ls fo)) <> LoadingView) /\
  (Part000.loading (state (Part000.startup env ls hs ao)) = false /\
   Part000.AppContent (state (Part000.startup env ls hs ao)) <> LoadingView) /\
  (Part001.loading (state (Part001.startup env ls hs ao)) = false /\
   Part001.AuthContent (state (Part001.startup env ls hs ao)) <> LoadingView).
Proof.
  assert (Hview_a : forall s, App.loading s = false ->
                              App.AppContent s <> LoadingView).
  { intros s H. unfold App.AppContent. rewrite H.
    destruct (truthy _); discriminate. }
  assert (Hview_b : forall s, Part000.loading s = false ->
                              Part000.AppContent s <> LoadingView).
  { intros s H. unfold Part000.AppContent. rewrite H.
    destruct (truthy _); discriminate. }
  assert (Hview_c : forall s, Part001.loading s = false ->
                              Part001.AuthContent s <> LoadingView).
  { intros s H. unfold Part001.AuthContent. rewrite H.
    destruct (truthy _); discriminate. }
  assert (Ha : App.loading (state (App.startup env ls fo)) = false).
  { run_session. destruct (truthy (getItem "token" ls)) eqn:E; simpl;
      [destruct fo as [| ok json];
         [| destruct ok; destruct json as [data |]] |];
      simpl; rewrite ?E; simpl; case_ifs E. }
  assert (Hb : Part000.loading (state (Part000.startup env ls hs ao)) = false).
  { run_session. destruct (truthy (getItem "token" ls)) eqn:E; simpl;
      [destruct ao as [data | response] |];
      simpl; rewrite ?E; simpl; case_ifs E. }
  assert (Hc : Part001.loading (state (Part001.startup env ls hs ao)) = false).
  { run_session. destruct (truthy (getItem "token" ls)) eqn:E; simpl;
      [destruct ao as [data | response] |]; reflexivity. }
  auto 10.
Qed.

(** With no token in storage, or an empty one, the startup of every
    version asks the backend nothing, changes neither storage nor headers,
    holds no profile and renders the login form. *)
Theorem startup_without_token (env : option string)
  (ls hs : gmap string string) (fo : FetchOutcome) (ao : AxiosOutcome) :
  ls !! "token" = None \/ ls !! "token" = Some "" ->
  (trace (App.startup env ls fo) = [] /\
   App.localStorage (state (App.startup env ls fo)) = ls /\
   App.user (state (App.startup env ls fo)) = JNull /\
   App.AppContent (state (App.startup env ls fo)) = LoginFormView) /\
  (trace (Part000.startup env ls hs ao) = [] /\
   Part000.localStorage (state (Part000.startup env ls hs ao)) = ls /\
   Part000.headers (state (Part000.startup env ls hs ao)) = hs /\
   Part000.user (state (Part000.startup env ls hs ao)) = JNull /\
   Part000.AppContent (state (Part000.startup env ls hs ao)) = LoginFormView) /\
  (trace (Part001.startup env ls hs ao) = [] /\
   Part001.localStorage (state (Part001.startup env ls hs ao)) = ls /\
   Part001.headers (state (Part001.startup env ls hs ao)) = hs /\
   Part001.user (state (Part001.startup env ls hs ao)) = JNull /\
   Part001.AuthContent (state (Part001.startup env ls hs ao)) = LoginFormView).
Proof.
  intros H.
  assert (E : getItem "token" ls = JNull \/ getItem "token" ls = JStr "").
  { unfold getItem. destruct H as [-> | ->]; auto. }
  run_session.
  destruct E as [-> | ->]; simpl; repeat split; reflexivity.
Qed.

Lemma startup_without_token_example :
  (∅ : gmap string string) !! "token" = None /\
  trace (App.startup None ∅ FetchRejected) = [] /\
  Part001.AuthContent
    (state (Part001.startup None ∅ ∅ (AxiosResolved (JStr "anyone"))))
    = LoginFormView.
Proof.
  pose proof (startup_without_token None ∅ ∅ FetchRejected
                (AxiosResolved (JStr "anyone")) (or_introl eq_refl))
    as (Ha & _ & Hc).
  split; [reflexivity |]. split; [apply Ha | apply Hc].
Defined.

(** A startup that finds a non-empty token and whose profile lookup is
    answered with a profile (a truthy body) keeps the token where it was,
    holds the profile and renders the dashboard; the axios versions send
    the token as their ambient credential. *)
Theorem startup_confirmed_token (env : option string)
  (ls hs : gmap string string) (tok : string) (profile : value) :
  ls !! "token" = Some tok ->
  tok <> "" ->
  truthy profile = true ->
  App.startup env ls (FetchResolved true (Some profile)) =
    (tt,
     {| App.user := profile; App.token := JStr tok; App.loading := false;
        App.localStorage := ls |},
     [HttpGet (App.API_BASE_URL env ++ "/auth/me");
      Settled (App.API_BASE_URL env ++ "/auth/me")]) /\
  App.AppContent (state (App.startup env ls (FetchResolved true (Some profile))))
    = DashboardView /\
  Part000.startup env ls hs (AxiosResolved profile) =
    (tt,
     {| Part000.user := profile; Part000.token := JStr tok;
        Part000.loading := false; Part000.localStorage := ls;
        Part000.headers := <["Authorization" := "Bearer " ++ tok]> hs |},
     [HttpGet (Part000.API_BASE_URL env ++ "/auth/me");
      Settled (Part000.API_BASE_URL env ++ "/auth/me")]) /\
  Part000.AppContent (state (Part000.startup env ls hs (AxiosResolved profile)))
    = DashboardView /\
  Part001.startup env ls hs (AxiosResolved profile) =
    (tt,
     {| Part001.user := profile; Part001.loading := false;
        Part001.localStorage := ls;
        Part001.headers := <["Authorization" := "Bearer " ++ tok]> hs |},
     [HttpGet (Part001.API env ++ "/auth/me");
      Settled (Part001.API env ++ "/auth/me")]) /\
  Part001.AuthContent (state (Part001.startup env ls hs (AxiosResolved profile)))
    = DashboardView.
Proof.
  intros Hls Htok Hprofile.
  unfold App.AppContent, Part000.AppContent, Part001.AuthContent.
  run_session. unfold getItem. rewrite Hls. simpl.
  destruct (String.eqb_spec tok ""); [contradiction |]. simpl.
  rewrite Hprofile. simpl. rewrite String.eqb_refl. simpl.
  rewrite Hprofile. repeat split; reflexivity.
Qed.

Lemma startup_confirmed_token_example :
  let ls : gmap string string := {[ "token" := "t0" ]} in
  let profile := JObj [("username", JStr "nurse"); ("role", JStr "staff")] in
  ls !! "token" = Some "t0" /\ "t0" <> "" /\ truthy profile = true /\
  App.AppContent (state (App.startup None ls (FetchResolved true (Some profile))))
    = DashboardView /\
  Part001.headers (state (Part001.startup None ls ∅ (AxiosResolved profile)))
    !! "Authorization" = Some "Bearer t0".
Proof.
  cbv zeta.
  assert (Hne : "t0" <> "") by discriminate.
  pose proof (startup_confirmed_token None {[ "token" := "t0" ]} ∅ "t0"
                (JObj [("username", JStr "nurse"); ("role", JStr "staff")])
                eq_refl Hne eq_refl) as (_ & Ha & _ & _ & Hc & _).
  split; [reflexivity |]. split; [exact Hne |]. split; [reflexivity |].
  split; [exact Ha |]. rewrite Hc. reflexivity.
Defined.

(** Whatever the backend answers, a startup that ends on the dashboard
    found a non-empty token in storage and left it there; the versions
    with a token state hold it, and the axios versions send it. *)
Theorem dashboard_needs_persisted_token (env : option string)
  (ls hs : gmap string string) (fo : FetchOutcome) (ao : AxiosOutcome) :
  (App.AppContent (state (App.startup env ls fo)) = DashboardView ->
   exists tok, tok <> "" /\ ls !! "token" = Some tok /\
     App.localStorage (state (App.startup env ls fo)) = ls /\
     App.token (state (App.startup env ls fo)) = JStr tok) /\
  (Part000.AppContent (state (Part000.startup env ls hs ao)) = DashboardView ->
   exists tok, tok <> "" /\ ls !! "token" = Some tok /\
     Part000.localStorage (state (Part000.startup env ls hs ao)) = ls /\
     Part000.token (state (Part000.startup env ls hs ao)) = JStr tok /\
     Part000.headers (state (Part000.startup env ls hs ao)) !! "Authorization"
       = Some ("Bearer " ++ tok)) /\
  (Part001.AuthContent (state (Part001.startup env ls hs ao)) = DashboardView ->
   exists tok, tok <> "" /\ ls !! "token" = Some tok /\
     Part001.localStorage (state (Part001.startup env ls hs ao)) = ls /\
     Part001.headers (state (Part001.startup env ls hs ao)) !! "Authorization"
       = Some ("Bearer " ++ tok)).
Proof.
  unfold App.AppContent, Part000.AppContent, Part001.AuthContent.
  run_session. unfold getItem.
  destruct (ls !! "token") as [tok |] eqn:Hls; simpl;
    [destruct (String.eqb_spec tok "") as [-> | Hne]; simpl |];
    try (repeat split; discriminate).
  split; [| split].
  - destruct fo as [| ok json]; [| destruct ok; destruct json as [data |]];
      simpl; try discriminate.
    destruct (truthy data) eqn:Hd; simpl.
    + rewrite String.eqb_refl. simpl. intros _. exists tok. auto.
    + discriminate.
  - destruct ao as [data | response]; simpl; [| discriminate].
    rewrite String.eqb_refl. simpl. intros _. exists tok.
    rewrite lookup_insert_eq. auto.
  - destruct ao as [data | response]; simpl; [| discriminate].
    intros _. exists tok. rewrite lookup_insert_eq. auto.
Qed.

(** A 2xx answer to the profile lookup whose body is falsy (null, an empty
    text) sends every version to the login form; the fetch version then
    forgets the token, the axios versions keep it in storage and go on
    sending it. *)
Theorem startup_falsy_profile (env : option string)
  (ls hs : gmap string string) (tok : string) (data : value) :
  ls !! "token" = Some tok ->
  tok <> "" ->
  truthy data = false ->
  let a := state (App.startup env ls (FetchResolved true (Some data))) in
  let b := state (Part000.startup env ls hs (AxiosResolved data)) in
  let c := state (Part001.startup env ls hs (AxiosResolved data)) in
  (App.AppContent a = LoginFormView /\
   App.localStorage a !! "token" = None /\ App.token a = JNull) /\
  (Part000.AppContent b = LoginFormView /\
   Part000.localStorage b !! "token" = Some tok /\
   Part000.token b = JStr tok /\
   Part000.headers b !! "Authorization" = Some ("Bearer " ++ tok)) /\
  (Part001.AuthContent c = LoginFormView /\
   Part001.localStorage c !! "token" = Some tok /\
   Part001.headers c !! "Authorization" = Some ("Bearer " ++ tok)).
Proof.
  intros Hls Htok Hdata.
  unfold App.AppContent, Part000.AppContent, Part001.AuthContent.
  run_session. unfold getItem. rewrite Hls. simpl.
  destruct (String.eqb_spec tok ""); [contradiction |]. simpl.
  rewrite Hdata. simpl. rewrite String.eqb_refl. simpl. rewrite Hdata.
  unfold removeItem. rewrite lookup_delete_eq, !lookup_insert_eq.
  repeat split; auto.
Qed.

Lemma startup_falsy_profile_example :
  let ls : gmap string string := {[ "token" := "t0" ]} in
  ls !! "token" = Some "t0" /\ "t0" <> "" /\ truthy JNull = false /\
  App.localStorage
    (state (App.startup None ls (FetchResolved true (Some JNull))))
    !! "token" = None /\
  Part000.localStorage
    (state (Part000.startup None ls ∅ (AxiosResolved JNull)))
    !! "token" = Some "t0".
Proof.
  cbv zeta.
  assert (Hne : "t0" <> "") by discriminate.
  pose proof (startup_falsy_profile None {[ "token" := "t0" ]} ∅ "t0" JNull
                eq_refl Hne eq_refl) as ((_ & Ha & _) & (_ & Hb & _) & _).
  split; [reflexivity |]. split; [exact Hne |]. split; [reflexivity |].
  split; [exact Ha | exact Hb].
Defined.

(** ** Login, logout and reload *)

Ltac run_login :=
  unfold App.login, Part000.login, Part001.login, App.initializeAdmin,
    Part000.initializeAdmin;
  run_session.

(** [logout] twice is [logout] once. *)
Theorem logout_idempotent
  (a : App.Session) (b : Part000.Session) (c : Part001.Session) :
  state (App.logout (state (App.logout a))) = state (App.logout a) /\
  state (Part000.logout (state (Part000.logout b))) = state (Part000.logout b) /\
  state (Part001.logout (state (Part001.logout c))) = state (Part001.logout c).
Proof.
  run_session. unfold removeItem. rewrite !delete_delete_eq. auto.
Qed.

(** From a session that holds no token (none in storage, none in the
    ambient header), a login attempt followed by a logout gives back the
    storage and the headers exactly as they were, whatever the backend
    answered to the login. *)
Theorem login_logout_round_trip (env : option string) (u p : string)
  (a : App.Session) (b : Part000.Session) (c : Part001.Session)
  (fo : FetchOutcome) (ao : AxiosOutcome) :
  App.localStorage a !! "token" = None ->
  Part000.localStorage b !! "token" = None ->
  Part000.headers b !! "Authorization" = None ->
  Part001.localStorage c !! "token" = None ->
  Part001.headers c !! "Authorization" = None ->
  let a' := state (App.logout (state (App.login env u p fo a))) in
  let b' := state (Part000.logout (state (Part000.login env u p ao b))) in
  let c' := state (Part001.logout (state (Part001.login env u p ao c))) in
  (App.localStorage a' = App.localStorage a /\
   App.user a' = JNull /\ App.token a' = JNull) /\
  (Part000.localStorage b' = Part000.localStorage b /\
   Part000.headers b' = Part000.headers b /\
   Part000.user b' = JNull /\ Part000.token b' = JNull) /\
  (Part001.localStorage c' = Part001.localStorage c /\
   Part001.headers c' = Part001.headers c /\
   Part001.user c' = JNull).
Proof.
  intros Ha Hb Hbh Hc Hch.
  split; [| split].
  - destruct fo as [| ok json]; [| destruct ok; destruct json as [data |]];
      run_login; unfold removeItem, setItem;
      try destruct (prop data _); simpl;
      rewrite ?delete_insert_id by assumption;
      rewrite ?delete_id by assumption; auto.
  - destruct ao as [data | response]; run_login; unfold removeItem, setItem;
      try destruct (prop data _); simpl;
      rewrite ?delete_insert_id by assumption;
      rewrite ?delete_id by assumption; auto.
  - destruct ao as [data | response]; run_login; unfold removeItem, setItem;
      try destruct (prop data _); simpl;
      rewrite ?delete_insert_id by assumption;
      rewrite ?delete_id by assumption; auto.
Qed.

Lemma login_logout_round_trip_example :
  let body := JObj [("access_token", JStr "t0");
                    ("user", JObj [("username", JStr "nurse")])] in
  let a := App.AuthProvider_init ∅ in
  let b := Part000.AuthProvider_init ∅ ∅ in
  App.localStorage a !! "token" = None /\
  App.localStorage
    (state (App.login None "nurse" "secret" (FetchResolved true (Some body)) a))
    !! "token" = Some "t0" /\
  App.localStorage
    (state (App.logout
              (state (App.login None "nurse" "secret"
                        (FetchResolved true (Some body)) a))))
    = App.localStorage a /\
  Part000.headers
    (state (Part000.logout
              (state (Part000.login None "nurse" "secret"
                        (AxiosResolved body) b))))
    = Part000.headers b.
Proof.
  cbv zeta.
  pose proof (login_logout_round_trip None "nurse" "secret"
                (App.AuthProvider_init ∅) (Part000.AuthProvider_init ∅ ∅)
                (Part001.AuthProvider_init ∅ ∅)
                (FetchResolved true
                   (Some (JObj [("access_token", JStr "t0");
                                ("user", JObj [("username", JStr "nurse")])])))
                (AxiosResolved
                   (JObj [("access_token", JStr "t0");
                          ("user", JObj [("username", JStr "nurse")])]))
                eq_refl eq_refl eq_refl eq_refl eq_refl)
    as ((Ha & _) & (_ & Hb & _) & _).
  split; [reflexivity |]. split; [reflexivity |].
  split; [exact Ha | exact Hb].
Defined.

(** The token kept by an accepted login is the one the next startup
    finds: on a reload, with a lookup that answers with a profile, every
    version asks for the profile and renders the dashboard, and the axios
    versions send that token from fresh headers. *)
Theorem login_survives_reload (env : option string) (u p : string)
  (a : App.Session) (b : Part000.Session) (c : Part001.Session)
  (fields : list (string * value)) (tok : string) (profile : value)
  (hs : gmap string string) :
  assoc "access_token" fields = JStr tok ->
  tok <> "" ->
  truthy profile = true ->
  let body := JObj fields in
  let la := App.localStorage
              (state (App.login env u p (FetchResolved true (Some body)) a)) in
  let lb := Part000.localStorage
              (state (Part000.login env u p (AxiosResolved body) b)) in
  let lc := Part001.localStorage
              (state (Part001.login env u p (AxiosResolved body) c)) in
  let ra := App.startup env la (FetchResolved true (Some profile)) in
  let rb := Part000.startup env lb hs (AxiosResolved profile) in
  let rc := Part001.startup env lc hs (AxiosResolved profile) in
  (In (HttpGet (App.API_BASE_URL env ++ "/auth/me")) (trace ra) /\
   App.AppContent (state ra) = DashboardView /\
   App.token (state ra) = JStr tok /\ App.user (state ra) = profile) /\
  (In (HttpGet (Part000.API_BASE_URL env ++ "/auth/me")) (trace rb) /\
   Part000.AppContent (state rb) = DashboardView /\
   Part000.headers (state rb) !! "Authorization" = Some ("Bearer " ++ tok) /\
   Part000.user (state rb) = profile) /\
  (In (HttpGet (Part001.API env ++ "/auth/me")) (trace rc) /\
   Part001.AuthContent (state rc) = DashboardView /\
   Part001.headers (state rc) !! "Authorization" = Some ("Bearer " ++ tok) /\
   Part001.user (state rc) = profile).
Proof.
  intros Htok Hne Hprofile.
  unfold App.AppContent, Part000.AppContent, Part001.AuthContent.
  run_login. rewrite Htok. simpl.
  unfold getItem, setItem. simpl. rewrite !lookup_insert_eq. simpl.
  destruct (String.eqb_spec tok ""); [contradiction |]. simpl.
  rewrite Hprofile. simpl. rewrite String.eqb_refl. simpl. rewrite Hprofile.
  rewrite !lookup_insert_eq. repeat split; auto.
Qed.

Lemma login_survives_reload_example :
  let body := JObj [("access_token", JStr "t0");
                    ("user", JObj [("username", JStr "nurse")])] in
  let profile := JObj [("username", JStr "nurse"); ("role", JStr "staff")] in
  assoc "access_token" [("access_token", JStr "t0");
                        ("user", JObj [("username", JStr "nurse")])]
    = JStr "t0" /\
  "t0" <> "" /\ truthy profile = true /\
  App.AppContent
    (state (App.startup None
              (App.localStorage
                 (state (App.login None "nurse" "secret"
                           (FetchResolved true (Some body))
                           (App.AuthProvider_init ∅))))
              (FetchResolved true (Some profile))))
    = DashboardView.
Proof.
  cbv zeta.
  assert (Hne : "t0" <> "") by discriminate.
  pose proof (login_survives_reload None "nurse" "secret"
                (App.AuthProvider_init ∅) (Part000.AuthProvider_init ∅ ∅)
                (Part001.AuthProvider_init ∅ ∅)
                [("access_token", JStr "t0");
                 ("user", JObj [("username", JStr "nurse")])]
                "t0"
                (JObj [("username", JStr "nurse"); ("role", JStr "staff")])
                ∅ eq_refl Hne eq_refl) as ((_ & Ha & _) & _).
  split; [reflexivity |]. split; [exact Hne |]. split; [reflexivity |].
  exact Ha.
Defined.

(** After a logout, a reload asks the backend nothing and renders the
    login form, whatever the session was before the logout. *)
Theorem logout_survives_reload (env : option string)
  (a : App.Session) (b : Part000.Session) (c : Part001.Session)
  (hs : gmap string string) (fo : FetchOutcome) (ao : AxiosOutcome) :
  let ra := App.startup env (App.localStorage (state (App.logout a))) fo in
  let rb := Part000.startup env
              (Part000.localStorage (state (Part000.logout b))) hs ao in
  let rc := Part001.startup env
              (Part001.localStorage (state (Part001.logout c))) hs ao in
  (trace ra = [] /\ App.AppContent (state ra) = LoginFormView) /\
  (trace rb = [] /\ Part000.AppContent (state rb) = LoginFormView) /\
  (trace rc = [] /\ Part001.AuthContent (state rc) = LoginFormView).
Proof.
  unfold App.AppContent, Part000.AppContent, Part001.AuthContent.
  run_session. unfold getItem, removeItem. rewrite !lookup_delete_eq.
  simpl. repeat split; reflexivity.
Qed.

(** In the two versions whose effect depends on [token], an accepted
    login changes the token, so the render that follows asks for the
    profile. When that lookup is turned down, the second version clears
    the whole session and shows the login form, although [login] reported
    success; the first version drops the token from state and storage but
    keeps the profile of the login response, so the dashboard stays, with
    no token. When the lookup answers with a profile, that profile
    replaces the one of the login response in both. *)
Theorem login_then_lookup (env : option string) (u p : string)
  (a : App.Session) (b : Part000.Session)
  (fields : list (string * value)) (tok : string)
  (fo : FetchOutcome) (ao : AxiosOutcome) (profile : value) :
  assoc "access_token" fields = JStr tok ->
  tok <> "" ->
  truthy (assoc "user" fields) = true ->
  same_value (App.token a) (JStr tok) = false ->
  same_value (Part000.token b) (JStr tok) = false ->
  fetch_rejects fo ->
  axios_rejects ao ->
  let body := JObj fields in
  let la := App.login env u p (FetchResolved true (Some body)) a in
  let lb := Part000.login env u p (AxiosResolved body) b in
  let ko_a := App.effect_on_change env (JStr tok) fo
                (state (App.effect_on_change env (App.token a) fo (state la))) in
  let ko_b := Part000.effect_on_change env (JStr tok) ao
                (state (Part000.effect_on_change env (Part000.token b) ao
                          (state lb))) in
  let ok_a := App.effect_on_change env (App.token a)
                (FetchResolved true (Some profile)) (state la) in
  let ok_b := Part000.effect_on_change env (Part000.token b)
                (AxiosResolved profile) (state lb) in
  (result la = Success None /\
   App.user (state ko_a) = assoc "user" fields /\
   App.token (state ko_a) = JNull /\
   App.localStorage (state ko_a) !! "token" = None /\
   App.AppContent (state ko_a) = DashboardView) /\
  (result lb = Success None /\
   Part000.user (state ko_b) = JNull /\ Part000.token (state ko_b) = JNull /\
   Part000.localStorage (state ko_b) !! "token" = None /\
   Part000.headers (state ko_b) !! "Authorization" = None /\
   Part000.AppContent (state ko_b) = LoginFormView) /\
  (truthy profile = true ->
   App.user (state ok_a) = profile /\
   App.localStorage (state ok_a) !! "token" = Some tok /\
   Part000.user (state ok_b) = profile /\
   Part000.localStorage (state ok_b) !! "token" = Some tok).
Proof.
  intros Htok Hne Huser Hsa Hsb Hfo Hao.
  unfold App.AppContent, Part000.AppContent.
  destruct ao as [data | response]; [contradiction |].
  run_login. unfold opt_prop. simpl. rewrite Htok. simpl.
  rewrite Hsa, Hsb. simpl.
  destruct (String.eqb_spec tok ""); [contradiction |]. simpl.
  unfold removeItem, setItem. simpl.
  split; [| split].
  - destruct fo as [| ok json]; simpl in Hfo; subst; simpl;
      rewrite lookup_delete_eq, Huser; repeat split; reflexivity.
  - rewrite !lookup_delete_eq. repeat split; reflexivity.
  - intros Hprofile. rewrite Hprofile. simpl.
    rewrite !lookup_insert_eq. repeat split; reflexivity.
Qed.

Lemma login_then_lookup_example :
  let body := JObj [("access_token", JStr "t0");
                    ("user", JObj [("username", JStr "nurse")])] in
  let a := App.setLoading false (App.AuthProvider_init ∅) in
  let la := App.login None "nurse" "secret" (FetchResolved true (Some body)) a in
  same_value (App.token a) (JStr "t0") = false /\
  fetch_rejects FetchRejected /\
  result la = Success None /\
  App.AppContent
    (state (App.effect_on_change None (JStr "t0") FetchRejected
              (state (App.effect_on_change None (App.token a) FetchRejected
                        (state la)))))
    = DashboardView /\
  App.token
    (state (App.effect_on_change None (JStr "t0") FetchRejected
              (state (App.effect_on_change None (App.token a) FetchRejected
                        (state la)))))
    = JNull.
Proof.
  cbv zeta.
  assert (Hne : "t0" <> "") by discriminate.
  pose proof (login_then_lookup None "nurse" "secret"
                (App.setLoading false (App.AuthProvider_init ∅))
                (Part000.AuthProvider_init ∅ ∅)
                [("access_token", JStr "t0");
                 ("user", JObj [("username", JStr "nurse")])]
                "t0" FetchRejected (AxiosRejected None) JNull
                eq_refl Hne eq_refl eq_refl eq_refl I I)
    as ((Hres & _ & Htoken & _ & Hview) & _).
  split; [reflexivity |]. split; [exact I |]. split; [exact Hres |].
  split; [exact Hview | exact Htoken].
Defined.

(** A 2xx answer to the login whose body is an object without an
    access_token is taken for an acceptance by every version: success is
    reported, the text "undefined" is stored as the token, and the axios
    versions send it as their credential; the next startup will find that
    text and look the profile up with it. *)
Theorem login_without_access_token (env : option string) (u p : string)
  (a : App.Session) (b : Part000.Session) (c : Part001.Session)
  (fields : list (string * value)) :
  assoc "access_token" fields = JUndefined ->
  let body := JObj fields in
  let ra := App.login env u p (FetchResolved true (Some body)) a in
  let rb := Part000.login env u p (AxiosResolved body) b in
  let rc := Part001.login env u p (AxiosResolved body) c in
  (result ra = Success None /\
   App.localStorage (state ra) !! "token" = Some "undefined" /\
   App.token (state ra) = JUndefined /\
   truthy (getItem "token" (App.localStorage (state ra))) = true) /\
  (result rb = Success None /\
   Part000.localStorage (state rb) !! "token" = Some "undefined" /\
   Part000.headers (state rb) !! "Authorization" = Some "Bearer undefined" /\
   truthy (getItem "token" (Part000.localStorage (state rb))) = true) /\
  (result rc = Success None /\
   Part001.localStorage (state rc) !! "token" = Some "undefined" /\
   Part001.headers (state rc) !! "Authorization" = Some "Bearer undefined" /\
   truthy (getItem "token" (Part001.localStorage (state rc))) = true).
Proof.
  intros Htok. run_login. rewrite Htok. simpl.
  unfold getItem, setItem. simpl. rewrite !lookup_insert_eq.
  repeat split; reflexivity.
Qed.

Lemma login_without_access_token_example :
  assoc "access_token" [("message", JStr "ok")] = JUndefined /\
  result (App.login None "nurse" "secret"
            (FetchResolved true (Some (JObj [("message", JStr "ok")])))
            (App.AuthProvider_init ∅)) = Success None /\
  Part001.localStorage
    (state (Part001.login None "nurse" "secret"
              (AxiosResolved (JObj [("message", JStr "ok")]))
              (Part001.AuthProvider_init ∅ ∅)))
    !! "token" = Some "undefined".
Proof.
  pose proof (login_without_access_token None "nurse" "secret"
                (App.AuthProvider_init ∅) (Part000.AuthProvider_init ∅ ∅)
                (Part001.AuthProvider_init ∅ ∅)
                [("message", JStr "ok")] eq_refl)
    as ((Ha & _) & _ & (_ & Hc & _)).
  split; [reflexivity |]. split; [exact Ha | exact Hc].
Defined.

(** ** The login form *)

Ltac run_form :=
  unfold App.handleSubmit, App.handleInitAdmin,
    Part000.LoginForm.handleSubmit, Part000.LoginForm.handleInitAdmin,
    Part001.LoginForm.handleSubmit, Part001.LoginForm.initializeAdmin;
  run_login;
  unfold App.setError, App.setIsLoading, App.setShowInitAdmin,
    App.setUsername, App.setPassword,
    Part000.LoginForm.setError, Part000.LoginForm.setIsLoading,
    Part000.LoginForm.setShowInitAdmin, Part000.LoginForm.setUsername,
    Part000.LoginForm.setPassword,
    Part001.LoginForm.setError, Part001.LoginForm.setLoading;
  simpl.

Ltac case_contains :=
  repeat match goal with
         | |- context [contains ?x ?y] => destruct (contains x y); simpl
         end.

(** [handleInitAdmin] never touches the session and always ends with the
    form out of its loading state. When the gateway reports success it
    fills in the default credentials, clears the error, hides the button
    and raises one alert; when it reports a failure it shows the gateway's
    error, leaves the typed credentials alone and raises no alert. *)
Theorem handleInitAdmin_outcomes (env : option string)
  (a : App.Session) (f : App.LoginForm) (fo : FetchOutcome)
  (b : Part000.Session) (g : Part000.LoginForm.State) (ao : AxiosOutcome) :
  let ga := result (App.initializeAdmin env fo a) in
  let ra := App.handleInitAdmin env fo (a, f) in
  let gb := result (Part000.initializeAdmin env ao b) in
  let rb := Part000.LoginForm.handleInitAdmin env ao (b, g) in
  let created :=
    [Alert "Admin user created! Username: admin, Password: admin123"] in
  ((state ra).1 = a /\ App.isLoading (state ra).2 = false /\
   (success ga = true ->
    (state ra).2 = {| App.username := "admin"; App.password := "admin123";
                      App.form_error := JStr ""; App.isLoading := false;
                      App.showInitAdmin := false |} /\
    List.filter is_alert (trace ra) = created) /\
   (success ga = false ->
    (state ra).2 = {| App.username := App.username f;
                      App.password := App.password f;
                      App.form_error := error ga; App.isLoading := false;
                      App.showInitAdmin := App.showInitAdmin f |} /\
    List.filter is_alert (trace ra) = [])) /\
  ((state rb).1 = b /\ Part000.LoginForm.isLoading (state rb).2 = false /\
   (success gb = true ->
    (state rb).2 = {| Part000.LoginForm.username := "admin";
                      Part000.LoginForm.password := "admin123";
                      Part000.LoginForm.form_error := JStr "";
                      Part000.LoginForm.isLoading := false;
                      Part000.LoginForm.showInitAdmin := false |} /\
    List.filter is_alert (trace rb) = created) /\
   (success gb = false ->
    (state rb).2 = {| Part000.LoginForm.username := Part000.LoginForm.username g;
                      Part000.LoginForm.password := Part000.LoginForm.password g;
                      Part000.LoginForm.form_error := error gb;
                      Part000.LoginForm.isLoading := false;
                      Part000.LoginForm.showInitAdmin :=
                        Part000.LoginForm.showInitAdmin g |} /\
    List.filter is_alert (trace rb) = [])).
Proof.
  cbv zeta. split.
  - destruct fo as [| ok json]; [| destruct ok; destruct json as [body |]];
      run_form; try destruct (prop body _); simpl;
      repeat split; intros; try discriminate; reflexivity.
  - destruct ao as [data | response]; run_form;
      repeat split; intros; try discriminate; reflexivity.
Qed.



(** In the second version a rejected login whose detail is a text or is
    missing never leaves the form stuck: [handleSubmit] runs to its end,
    the loading state is left and the form shows a non-empty message. *)
Theorem Part000_handleSubmit_completes (env : option string)
  (b : Part000.Session) (g : Part000.LoginForm.State)
  (response : option value) :
  error_detail response = JUndefined \/
  (exists s, error_detail response = JStr s) ->
  let r := Part000.LoginForm.handleSubmit env (AxiosRejected response) (b, g) in
  result r = Some tt /\
  (state r).1 = b /\
  Part000.LoginForm.isLoading (state r).2 = false /\
  is_message (Part000.LoginForm.form_error (state r).2).
Proof.
  intros H. cbv zeta. run_form.
  assert (Hm : is_message (or_else (error_detail response) (JStr "Login failed"))).
  { apply or_else_message; [discriminate | exact H]. }
  destruct Hm as (s & -> & Hs). simpl.
  case_contains; repeat split; try reflexivity; exists s; auto.
Qed.

Lemma Part000_handleSubmit_completes_example :
  error_detail None = JUndefined /\
  result (Part000.LoginForm.handleSubmit None (AxiosRejected None)
            (Part000.AuthProvider_init ∅ ∅, Part000.LoginForm.init))
    = Some tt.
Proof.
  split; [reflexivity |].
  apply (Part000_handleSubmit_completes None (Part000.AuthProvider_init ∅ ∅)
           Part000.LoginForm.init None (or_introl eq_refl)).
Defined.

(** The form of the third version leaves its loading state after every
    login attempt. It ends with the error of the gateway when the login
    failed and with no error when it succeeded, whatever error was shown
    before; the session is what [login] made of it. *)
Theorem Part001_handleSubmit_outcomes (env : option string)
  (c : Part001.Session) (f : Part001.LoginForm.State) (ao : AxiosOutcome) :
  let l := Part001.login env (Part001.LoginForm.username f)
             (Part001.LoginForm.password f) ao c in
  let r := Part001.LoginForm.handleSubmit env ao (c, f) in
  (state r).1 = state l /\
  Part001.LoginForm.loading (state r).2 = false /\
  Part001.LoginForm.username (state r).2 = Part001.LoginForm.username f /\
  Part001.LoginForm.password (state r).2 = Part001.LoginForm.password f /\
  Part001.LoginForm.form_error (state r).2
    = (if success (result l) then JStr "" else error (result l)).
Proof.
  cbv zeta. destruct ao as [data | response]; run_form;
    try destruct (prop data _); simpl; repeat split; reflexivity.
Qed.

(** ** The loaders of the dashboard *)

Ltac run_dashboard :=
  unfold App.Dashboard.mount, App.Dashboard.fetchMedications,
    App.Dashboard.fetchDashboardData,
    App.Dashboard.fetchMedications_resume,
    App.Dashboard.fetchDashboardData_resume,
    Part000.Dashboard.mount, Part000.Dashboard.fetchMedications,
    Part000.Dashboard.fetchDashboardData,
    Part000.Dashboard.fetchMedications_resume,
    Part000.Dashboard.fetchDashboardData_resume,
    Part001.Dashboard.mount, Part001.Dashboard.fetchMedications,
    Part001.Dashboard.fetchDashboardData,
    Part001.Dashboard.fetchMedications_resume,
    Part001.Dashboard.fetchDashboardData_resume;
  run_monad;
  unfold App.Dashboard.setLoading, App.Dashboard.setMedications,
    App.Dashboard.setDashboardData,
    Part000.Dashboard.setLoading, Part000.Dashboard.setMedications,
    Part000.Dashboard.setStats, Part000.Dashboard.setError,
    Part001.Dashboard.setLoading, Part001.Dashboard.setMedications,
    Part001.Dashboard.setStats;
  simpl.

Ltac case_fetch fo :=
  let ok := fresh "ok" in
  let json := fresh "json" in
  let data := fresh "data" in
  destruct fo as [| ok json]; [| destruct ok; destruct json as [data |]].

(** The state the dashboard reaches on mount does not depend on which of
    its two requests settles first, in the first and in the third version
    always, in the second version unless both requests fail; then the
    error banner carries the message of the loader that failed last, and
    everything else is the same. *)
Theorem dashboard_mount_order (env : option string)
  (a : App.Dashboard.State) (fd fm : FetchOutcome)
  (b : Part000.Dashboard.State) (c : Part001.Dashboard.State)
  (ad am : AxiosOutcome) :
  state (App.Dashboard.mount env fd fm true a)
    = state (App.Dashboard.mount env fd fm false a) /\
  state (Part001.Dashboard.mount env ad am true c)
    = state (Part001.Dashboard.mount env ad am false c) /\
  (axios_rejects ad /\ axios_rejects am \/
   state (Part000.Dashboard.mount env ad am true b)
     = state (Part000.Dashboard.mount env ad am false b)) /\
  (axios_rejects ad -> axios_rejects am ->
   let first := state (Part000.Dashboard.mount env ad am true b) in
   let last := state (Part000.Dashboard.mount env ad am false b) in
   Part000.Dashboard.error first = "Failed to fetch medications" /\
   Part000.Dashboard.error last = "Failed to fetch dashboard data" /\
   Part000.Dashboard.setError "" first = Part000.Dashboard.setError "" last).
Proof.
  repeat apply conj.
  - case_fetch fd; case_fetch fm; reflexivity.
  - destruct ad, am; reflexivity.
  - destruct ad, am; simpl; auto.
  - destruct ad, am; simpl; try contradiction. intros _ _.
    repeat split; reflexivity.
Qed.

(** A loader of the medications list that fails leaves the list and the
    statistics it had, and one that succeeds replaces the list with the
    body of the answer and nothing else; either way the spinner goes. The
    first version treats a non-2xx answer in silence; the second version
    raises its error banner on a failure and never lowers it on a later
    success. *)
Theorem fetchMedications_outcomes (env : option string)
  (a : App.Dashboard.State) (fo : FetchOutcome)
  (b : Part000.Dashboard.State) (c : Part001.Dashboard.State)
  (ao : AxiosOutcome) (data : value) (json : option value) :
  let ra := App.Dashboard.fetchMedications env fo a in
  let rb := Part000.Dashboard.fetchMedications env ao b in
  let rc := Part001.Dashboard.fetchMedications env ao c in
  (App.Dashboard.loading (state ra) = false /\
   Part000.Dashboard.loading (state rb) = false /\
   Part001.Dashboard.loading (state rc) = false) /\
  (App.Dashboard.dashboardData (state ra) = App.Dashboard.dashboardData a /\
   Part000.Dashboard.stats (state rb) = Part000.Dashboard.stats b /\
   Part001.Dashboard.stats (state rc) = Part001.Dashboard.stats c) /\
  (fetch_rejects fo \/ fo = FetchResolved true None ->
   App.Dashboard.medications (state ra) = App.Dashboard.medications a) /\
  (axios_rejects ao ->
   Part000.Dashboard.medications (state rb) = Part000.Dashboard.medications b /\
   Part000.Dashboard.error (state rb) = "Failed to fetch medications" /\
   Part001.Dashboard.medications (state rc) = Part001.Dashboard.medications c) /\
  (App.Dashboard.medications
     (state (App.Dashboard.fetchMedications env
               (FetchResolved true (Some data)) a)) = data /\
   Part000.Dashboard.medications
     (state (Part000.Dashboard.fetchMedications env (AxiosResolved data) b))
     = data /\
   Part000.Dashboard.error
     (state (Part000.Dashboard.fetchMedications env (AxiosResolved data) b))
     = Part000.Dashboard.error b /\
   Part001.Dashboard.medications
     (state (Part001.Dashboard.fetchMedications env (AxiosResolved data) c))
     = data) /\
  trace (App.Dashboard.fetchMedications env (FetchResolved false json) a)
    = [HttpGet (App.API_BASE_URL env ++ "/medications");
       Settled (App.API_BASE_URL env ++ "/medications")].
Proof.
  cbv zeta. repeat apply conj; try reflexivity.
  - case_fetch fo; reflexivity.
  - destruct ao; reflexivity.
  - destruct ao; reflexivity.
  - case_fetch fo; reflexivity.
  - destruct ao; reflexivity.
  - destruct ao; reflexivity.
  - intros [H | ->]; [| reflexivity].
    case_fetch fo; simpl in H; try discriminate; reflexivity.
  - destruct ao; simpl; [contradiction | auto].
Qed.

(** ** Adding a medication and testing the alerts *)

(** Adding a medication that the backend accepts empties the form, raises
    one alert and asks once for the medications list, after the write
    settled; when the backend refuses, what was typed stays in the form,
    nothing is fetched and the one alert carries the detail of the answer
    or the fixed text. The busy flag is down at the end of both. *)
Theorem add_medication_outcomes (env : option string)
  (b : Part000.AdminTab.State) (c : Part001.AdminContent.State)
  (data : value) (response : option value) :
  let url0 := Part000.API_BASE_URL env ++ "/medications" in
  let ok0 := Part000.AdminTab.handleAddMedication env (AxiosResolved data) b in
  let ko0 := Part000.AdminTab.handleAddMedication env (AxiosRejected response) b in
  let url1 := Part001.API env ++ "/medications" in
  let ok1 := Part001.AdminContent.handleSubmit env (AxiosResolved data) c in
  let ko1 := Part001.AdminContent.handleSubmit env (AxiosRejected response) c in
  let refused := Alert (to_string (or_else (error_detail response)
                                           (JStr "Failed to add medication"))) in
  (state ok0 = {| Part000.AdminTab.newMedication := Part000.AdminTab.emptyMedication;
                  Part000.AdminTab.isAdding := false;
                  Part000.AdminTab.isTestingSMS := Part000.AdminTab.isTestingSMS b |} /\
   count_get url0 (trace ok0) = 1%nat /\
   count_get url0 (before_settled url0 (trace ok0)) = 0%nat /\
   List.filter is_alert (trace ok0) = [Alert "Medication added successfully!"]) /\
  (state ko0 = {| Part000.AdminTab.newMedication := Part000.AdminTab.newMedication b;
                  Part000.AdminTab.isAdding := false;
                  Part000.AdminTab.isTestingSMS := Part000.AdminTab.isTestingSMS b |} /\
   count_get url0 (trace ko0) = 0%nat /\
   List.filter is_alert (trace ko0) = [refused]) /\
  (state ok1 = {| Part001.AdminContent.newMed := Part001.AdminContent.emptyMed;
                  Part001.AdminContent.loading := false |} /\
   count_get url1 (trace ok1) = 1%nat /\
   count_get url1 (before_settled url1 (trace ok1)) = 0%nat /\
   List.filter is_alert (trace ok1) = [Alert "Medication added successfully!"]) /\
  (state ko1 = {| Part001.AdminContent.newMed := Part001.AdminContent.newMed c;
                  Part001.AdminContent.loading := false |} /\
   count_get url1 (trace ko1) = 0%nat /\
   List.filter is_alert (trace ko1) = [refused]).
Proof.
  cbv zeta.
  unfold Part000.AdminTab.handleAddMedication,
    Part001.AdminContent.handleSubmit,
    Part000.fetchMedications_request, Part001.fetchMedications_request.
  run_monad. unfold count_get. simpl.
  rewrite !String.eqb_refl. simpl.
  repeat split; reflexivity.
Qed.

(** Testing the alerts raises exactly one alert, whatever the backend
    does. The second version announces success only when the body of a
    2xx answer has a truthy [success]; the third version announces success
    on every 2xx answer, also when the body says [success: false]. *)
Theorem test_sms_alerts (env : option string)
  (b : Part000.AdminTab.State) (c : Part001.AdminContent.State)
  (ao : AxiosOutcome) (data : value) :
  let sent := Alert "Test SMS sent successfully!" in
  (exists msg, List.filter is_alert
                 (trace (Part000.AdminTab.handleTestSMS env ao b)) = [Alert msg]) /\
  (exists msg, List.filter is_alert
                 (trace (Part001.AdminContent.testSMS env ao c)) = [Alert msg]) /\
  Part000.AdminTab.isTestingSMS
    (state (Part000.AdminTab.handleTestSMS env ao b)) = false /\
  (In sent (trace (Part000.AdminTab.handleTestSMS env (AxiosResolved data) b))
   <-> truthy (opt_prop data "success") = true) /\
  In sent (trace (Part001.AdminContent.testSMS env (AxiosResolved data) c)) /\
  List.filter is_alert
    (trace (Part000.AdminTab.handleTestSMS env
              (AxiosResolved (JObj [("success", JBool false)])) b))
    = [Alert "Failed to send test SMS"] /\
  List.filter is_alert
    (trace (Part001.AdminContent.testSMS env
              (AxiosResolved (JObj [("success", JBool false)])) c))
    = [sent].
Proof.
  cbv zeta.
  unfold Part000.AdminTab.handleTestSMS, Part001.AdminContent.testSMS.
  repeat apply conj; try reflexivity.
  - destruct ao as [d | response]; run_monad;
      [destruct (prop d "success") | ]; simpl; eauto.
  - destruct ao as [d | response]; run_monad; eauto.
  - destruct ao as [d | response]; run_monad;
      [destruct (prop d "success") | ]; reflexivity.
  - run_monad. unfold opt_prop.
    destruct (prop data "success") as [flag |]; simpl.
    + destruct (truthy flag); simpl; intuition discriminate.
    + intuition discriminate.
  - run_monad. intros H. unfold opt_prop in H.
    destruct (prop data "success") as [flag |]; simpl in *;
      [rewrite H; simpl; auto 6 | discriminate].
  - run_monad. auto.
Qed.

(** ** The tabs of the dashboard *)

(** In the two versions with an admin panel, the panel is rendered exactly
    when the admin tab is active and the role of the profile is the text
    admin, and its tab button is offered exactly to that role; at most one
    panel is rendered at a time, and none while the dashboard loads. *)
Theorem admin_panel_gating (activeTab : string) (user : value)
  (b : Part000.Dashboard.State) (c : Part001.Dashboard.State) :
  (In Part000.Dashboard.AdminTab (Part000.Dashboard.mainPanels activeTab user)
   <-> activeTab = "admin" /\ opt_prop user "role" = JStr "admin") /\
  (In Part001.Dashboard.AdminContent
      (Part001.Dashboard.mainPanels activeTab user)
   <-> activeTab = "admin" /\ opt_prop user "role" = JStr "admin") /\
  (In "admin" (Part000.Dashboard.navTabs user)
   <-> opt_prop user "role" = JStr "admin") /\
  (In "admin" (Part001.Dashboard.navTabs user)
   <-> opt_prop user "role" = JStr "admin") /\
  (length (Part000.Dashboard.mainPanels activeTab user) <= 1)%nat /\
  (length (Part001.Dashboard.mainPanels activeTab user) <= 1)%nat /\
  (Part000.Dashboard.loading b = true ->
   Part000.Dashboard.render b user = None) /\
  (Part001.Dashboard.loading c = true ->
   Part001.Dashboard.render c user = None).
Proof.
  assert (Hrole : forall v, is_string v "admin" = true <-> v = JStr "admin").
  { intros v. destruct v; simpl; try (split; discriminate).
    destruct (String.eqb_spec s "admin"); split; congruence. }
  unfold Part000.Dashboard.mainPanels, Part001.Dashboard.mainPanels,
    Part000.Dashboard.navTabs, Part001.Dashboard.navTabs,
    Part000.Dashboard.render, Part001.Dashboard.render.
  specialize (Hrole (opt_prop user "role")).
  destruct (is_string (opt_prop user "role") "admin") eqn:Er;
    destruct (String.eqb_spec activeTab "dashboard");
    destruct (String.eqb_spec activeTab "medications");
    destruct (String.eqb_spec activeTab "usage");
    destruct (String.eqb_spec activeTab "admin");
    subst; try discriminate; simpl;
    intuition (try discriminate; try congruence; try lia);
    match goal with
    | H : ?l = true |- (if ?l then _ else _) = _ => rewrite H; reflexivity
    end.
Qed.

(** ** Status and lists *)

(** The status shown for a medication agrees with the two lists the
    dashboard computes from the same data: critical exactly for the
    members of [criticalStockMeds], low exactly for the members of
    [lowStockMeds] that are not critical, in stock for the rest. *)
Theorem status_agrees_with_lists (medications : list Medication)
  (med : Medication) :
  In med medications ->
  let low0 := In med (Part000.lowStockMeds medications) in
  let crit0 := In med (Part000.criticalStockMeds medications) in
  let low1 := In med (Part001.lowStockMeds medications) in
  let crit1 := In med (Part001.criticalStockMeds medications) in
  ((Part000.getStockStatus med = Part000_critical <-> crit0) /\
   (Part000.getStockStatus med = Part000_low <-> low0 /\ ~ crit0) /\
   (Part000.getStockStatus med = Part000_ok <-> ~ low0 /\ ~ crit0)) /\
  ((Part001_row med = Part001_critical <-> crit1) /\
   (Part001_row med = Part001_low <-> low1 /\ ~ crit1) /\
   (Part001_row med = Part001_ok <-> ~ low1 /\ ~ crit1)).
Proof.
  intros Hin. cbv zeta.
  unfold Part000.lowStockMeds, Part000.criticalStockMeds,
    Part001.lowStockMeds, Part001.criticalStockMeds.
  rewrite !filter_In.
  unfold Part000.getStockStatus, Part001_row, Part001.stockBadges,
    Part001.stockColor, Part001.isCritical, Part001.isLowStock.
  destruct (current_stock med =? 0)%Z;
    destruct (current_stock med <=? minimum_threshold med)%Z; simpl;
    repeat split; try discriminate; try reflexivity;
    intros; try assumption; intuition discriminate.
Qed.

Lemma status_agrees_with_lists_example :
  In (med_of 0 5) [med_of 0 5; med_of 3 5] /\
  Part000.getStockStatus (med_of 0 5) = Part000_critical /\
  ~ In (med_of 3 5) (Part001.criticalStockMeds [med_of 0 5; med_of 3 5]).
Proof.
  assert (Hin0 : In (med_of 0 5) [med_of 0 5; med_of 3 5])
    by (left; reflexivity).
  assert (Hin3 : In (med_of 3 5) [med_of 0 5; med_of 3 5])
    by (right; left; reflexivity).
  split; [exact Hin0 |]. split.
  - apply (status_agrees_with_lists _ _ Hin0). simpl. left. reflexivity.
  - pose proof (status_agrees_with_lists _ _ Hin3) as (_ & _ & Hlow & _).
    apply Hlow. reflexivity.
Defined.

(** ** The usage form *)

(** In every version, logging usage raises exactly one alert and ends with
    the busy flag down; the form is emptied when the write succeeded and
    keeps what was typed when it did not. *)
Theorem log_usage_outcomes (env : option string)
  (a : App.UsageTab) (fo : FetchOutcome)
  (b : Part000.UsageTab) (c : Part001.MedicationsContent)
  (ao : AxiosOutcome) :
  let ra := App.handleLogUsage env fo a in
  let rb := Part000.handleLogUsage env ao b in
  let rc := Part001.handleUsageSubmit env ao c in
  ((exists msg, List.filter is_alert (trace ra) = [Alert msg]) /\
   state ra = (match fo with
               | FetchResolved true _ =>
                   {| App.selectedMedication := ""; App.quantity := "";
                      App.notes := ""; App.isLogging := false |}
               | _ => App.setIsLogging false a
               end)) /\
  ((exists msg, List.filter is_alert (trace rb) = [Alert msg]) /\
   state rb = (match ao with
               | AxiosResolved _ =>
                   {| Part000.selectedMedication := ""; Part000.quantity := "";
                      Part000.notes := ""; Part000.isLogging := false |}
               | AxiosRejected _ => Part000.setIsLogging false b
               end)) /\
  ((exists msg, List.filter is_alert (trace rc) = [Alert msg]) /\
   state rc = (match ao with
               | AxiosResolved _ =>
                   {| Part001.usageForm :=
                        {| Part001.medicationId := ""; Part001.quantity := "";
                           Part001.notes := "" |};
                      Part001.submitting := false |}
               | AxiosRejected _ => Part001.setLoadingFlag false c
               end)).
Proof.
  cbv zeta.
  unfold App.handleLogUsage, Part000.handleLogUsage,
    Part001.handleUsageSubmit, Part000.fetchMedications_request,
    Part000.fetchUsageHistory_request, Part001.fetchMedications_request.
  split; [| split].
  - case_fetch fo; run_monad; try destruct (prop data "detail"); simpl;
      split; eauto.
  - destruct ao; run_monad; split; eauto.
  - destruct ao; run_monad; split; eauto.
Qed.

(** ** The recent lists of the third version *)

(** A recent list of the dashboard shows at most five rows, the first
    five items of the list in the statistics, in their order. The text
    that stands for an empty section shows only when the statistics or the
    list are missing: an empty list shows no row and no text. *)
Theorem recent_rows_bounded (key text : string) (stats : value) :
  (forall shown,
     Part001.Dashboard.recentRows key text stats
       = Some (Part001.Dashboard.Rows shown) ->
     (length shown <= 5)%nat /\
     exists items, opt_prop stats key = JArr items /\ shown = take 5 items) /\
  (forall t,
     Part001.Dashboard.recentRows key text stats
       = Some (Part001.Dashboard.Text t) <->
     t = text /\
     (nullish stats = true \/ nullish (opt_prop stats key) = true)) /\
  (opt_prop stats key = JArr [] ->
   Part001.Dashboard.recentRows key text stats
     = Some (Part001.Dashboard.Rows [])) /\
  (forall items,
     opt_prop stats key = JArr items ->
     (forall item, In item (take 5 items) -> nullish item = false) ->
     Part001.Dashboard.recentRows key text stats
       = Some (Part001.Dashboard.Rows (take 5 items))).
Proof.
  unfold Part001.Dashboard.recentRows.
  assert (Hstats : nullish stats = true -> nullish (opt_prop stats key) = true).
  { destruct stats; simpl; try discriminate; reflexivity. }
  repeat apply conj.
  - intros shown.
    destruct (nullish stats); [discriminate |].
    destruct (nullish (opt_prop stats key)) eqn:En; [discriminate |].
    destruct (opt_prop stats key) as [| | | | | | items |]; try discriminate.
    destruct (existsb nullish (take 5 items)); [discriminate |].
    intros H. injection H as <-. split.
    + rewrite length_take. lia.
    + exists items. auto.
  - intros t. split.
    + destruct (nullish stats) eqn:Es.
      * intros H. injection H as <-. auto.
      * destruct (nullish (opt_prop stats key)) eqn:En.
        -- intros H. injection H as <-. auto.
        -- destruct (opt_prop stats key) as [| | | | | | items |];
             try discriminate.
           destruct (existsb nullish (take 5 items)); discriminate.
    + intros (-> & [Hs | Hl]).
      * rewrite Hs. reflexivity.
      * destruct (nullish stats); [reflexivity |]. rewrite Hl. reflexivity.
  - intros H.
    destruct (nullish stats) eqn:Es.
    + specialize (Hstats eq_refl). rewrite H in Hstats. discriminate.
    + rewrite H. reflexivity.
  - intros items H Hitems.
    destruct (nullish stats) eqn:Es.
    + specialize (Hstats eq_refl). rewrite H in Hstats. discriminate.
    + rewrite H. simpl.
      destruct (existsb nullish (take 5 items)) eqn:Ex; [| reflexivity].
      apply existsb_exists in Ex as (item & Hin & Hn).
      rewrite (Hitems item Hin) in Hn. discriminate.
Qed.

Example recent_rows_six_items :
  let usage n := JObj [("id", JNum n)] in
  Part001.Dashboard.recentUsage
    (JObj [("recent_usage",
            JArr [usage 1; usage 2; usage 3; usage 4; usage 5; usage 6])])
    = Some (Part001.Dashboard.Rows
              [usage 1; usage 2; usage 3; usage 4; usage 5]) /\
  Part001.Dashboard.recentUsage JNull
    = Some (Part001.Dashboard.Text "No recent usage") /\
  Part001.Dashboard.recentAlerts (JObj [("recent_alerts", JArr [])])
    = Some (Part001.Dashboard.Rows []) /\
  Part001.Dashboard.recentAlerts (JObj [("recent_alerts", JStr "none")])
    = None.
Proof. repeat split; reflexivity. Qed.

(** ** When the login form gets stuck *)

(** A login that reports a failure has left the session as it was. *)
Lemma login_failure_keeps_session (env : option string) (u p : string)
  (a : App.Session) (b : Part000.Session) (c : Part001.Session)
  (fo : FetchOutcome) (ao : AxiosOutcome) :
  (success (result (App.login env u p fo a)) = false ->
   state (App.login env u p fo a) = a) /\
  (success (result (Part000.login env u p ao b)) = false ->
   state (Part000.login env u p ao b) = b) /\
  (success (result (Part001.login env u p ao c)) = false ->
   state (Part001.login env u p ao c) = c).
Proof.
  repeat apply conj.
  - case_fetch fo; run_login; try destruct (prop data _); simpl;
      intros; try discriminate; reflexivity.
  - destruct ao as [data | response]; run_login;
      try destruct (prop data _); simpl;
      intros; try discriminate; reflexivity.
  - destruct ao as [data | response]; run_login;
      try destruct (prop data _); simpl;
      intros; try discriminate; reflexivity.
Qed.

(** [handleSubmit] of the first two versions dies, with the form left in
    its loading state and the session untouched, exactly when the login
    failed with an error that is neither a text nor an array; in every
    other case it runs to its end and the loading state is left. *)
Theorem handleSubmit_stuck_iff (env : option string)
  (a : App.Session) (f : App.LoginForm) (fo : FetchOutcome)
  (b : Part000.Session) (g : Part000.LoginForm.State) (ao : AxiosOutcome) :
  let la := result (App.login env (App.username f) (App.password f) fo a) in
  let ra := App.handleSubmit env fo (a, f) in
  let lb := result (Part000.login env (Part000.LoginForm.username g)
                      (Part000.LoginForm.password g) ao b) in
  let rb := Part000.LoginForm.handleSubmit env ao (b, g) in
  ((result ra = None <->
    success la = false /\ includes (error la) "User not found" = None) /\
   (result ra = None ->
    App.isLoading (state ra).2 = true /\ (state ra).1 = a) /\
   (result ra = Some tt -> App.isLoading (state ra).2 = false)) /\
  ((result rb = None <->
    success lb = false /\ includes (error lb) "User not found" = None) /\
   (result rb = None ->
    Part000.LoginForm.isLoading (state rb).2 = true /\ (state rb).1 = b) /\
   (result rb = Some tt -> Part000.LoginForm.isLoading (state rb).2 = false)).
Proof.
  assert (Hinc : forall v n1 n2, includes v n1 = None -> includes v n2 = None).
  { intros v n1 n2. destruct v; simpl; auto; discriminate. }
  assert (Hinc' : forall v n1 n2 x, includes v n1 = Some x ->
                                    includes v n2 <> None).
  { intros v n1 n2 x. destruct v; simpl; discriminate. }
  cbv zeta. split.
  - unfold App.handleSubmit.
    destruct (App.login env (App.username f) (App.password f) fo a)
      as [[l s'] log] eqn:El.
    assert (Hs : success l = false -> s' = a).
    { pose proof (login_failure_keeps_session env (App.username f)
                    (App.password f) a b (Part001.AuthProvider_init ∅ ∅) fo ao)
        as (H & _).
      rewrite El in H. exact H. }
    run_monad. rewrite El. simpl.
    destruct l as [d | e]; simpl.
    + intuition (try discriminate; try congruence).
    + specialize (Hs eq_refl).
      destruct (includes e "User not found") as [[|] |] eqn:E1; simpl.
      * intuition (try discriminate; try congruence).
      * destruct (includes e "Invalid credentials") as [[|] |] eqn:E2; simpl.
        -- intuition (try discriminate; try congruence).
        -- intuition (try discriminate; try congruence).
        -- exfalso. exact (Hinc' _ _ "Invalid credentials" _ E1 E2).
      * unfold App.setError, App.setIsLoading. simpl.
        intuition (try discriminate; try congruence).
  - unfold Part000.LoginForm.handleSubmit.
    destruct (Part000.login env (Part000.LoginForm.username g)
                (Part000.LoginForm.password g) ao b)
      as [[l s'] log] eqn:El.
    assert (Hs : success l = false -> s' = b).
    { pose proof (login_failure_keeps_session env
                    (Part000.LoginForm.username g)
                    (Part000.LoginForm.password g)
                    a b (Part001.AuthProvider_init ∅ ∅) fo ao)
        as (_ & H & _).
      rewrite El in H. exact H. }
    run_monad. rewrite El. simpl.
    destruct l as [d | e]; simpl.
    + intuition (try discriminate; try congruence).
    + specialize (Hs eq_refl).
      destruct (includes e "User not found") as [[|] |] eqn:E1; simpl.
      * intuition (try discriminate; try congruence).
      * destruct (includes e "Invalid credentials") as [[|] |] eqn:E2; simpl.
        -- intuition (try discriminate; try congruence).
        -- intuition (try discriminate; try congruence).
        -- exfalso. exact (Hinc' _ _ "Invalid credentials" _ E1 E2).
      * unfold Part000.LoginForm.setError, Part000.LoginForm.setIsLoading.
        simpl. intuition (try discriminate; try congruence).
Qed.

(** An error that is a number stops the form of the second version; the
    same answer with a text as its detail does not. *)
Example handleSubmit_stuck_on_number :
  result (Part000.LoginForm.handleSubmit None
            (AxiosRejected (Some (JObj [("detail", JNum 429)])))
            (Part000.AuthProvider_init ∅ ∅, Part000.LoginForm.init)) = None /\
  result (Part000.LoginForm.handleSubmit None
            (AxiosRejected (Some (JObj [("detail", JStr "Too many requests")])))
            (Part000.AuthProvider_init ∅ ∅, Part000.LoginForm.init)) = Some tt.
Proof. split; reflexivity. Qed.
